(** * ccsv.detect_type: cell type detection and the type score

    A shallow embedding of [src/ccsv/detect_type.py].

    - Python strings are lists of Unicode code points ([N]).
    - The patterns of [PATTERNS] are regex syntax trees, read off the
      pattern sources, and [fullmatch] is a backtracking matcher with
      groups, group conditionals and lookahead, as the [regex] module has.
    - The Unicode tables of the [regex] module and of [str.lower] are not
      part of the repository: they are the fields of a [unicode_db].
    - Code that can raise ([dict.get] followed by a method call, list
      indexing, [Match.group]) lives in the error monad [res]. *)

From Stdlib Require Import List String Ascii NArith ZArith QArith Bool Lia Arith.
From Stdlib Require DecimalString Permutation.
Import ListNotations.

Set Implicit Arguments.
Local Open Scope nat_scope.

(* ================================================================== *)
(** ** Python strings *)

Module Str.

(** A Python [str]: a sequence of code points. *)
Definition t := list N.

Definition eqb (a b : t) : bool :=
  if list_eq_dec N.eq_dec a b then true else false.

Fixpoint of_string (s : string) : t :=
  match s with
  | EmptyString => []
  | String a s' => N_of_ascii a :: of_string s'
  end.

(** [c in s] for a one-character [c]. *)
Definition contains (c : N) (s : t) : bool := existsb (N.eqb c) s.

(** [s.lstrip(c)], [s.rstrip(c)], [s.strip(c)] for a one-character [c]. *)
Fixpoint lstrip (c : N) (s : t) : t :=
  match s with
  | x :: s' => if N.eqb x c then lstrip c s' else s
  | [] => []
  end.

Definition rstrip (c : N) (s : t) : t := rev (lstrip c (rev s)).

Definition strip (c : N) (s : t) : t := rstrip c (lstrip c s).

(** [s.endswith(c)] for a one-character [c]. *)
Definition endswith (c : N) (s : t) : bool :=
  match rev s with
  | x :: _ => N.eqb x c
  | [] => false
  end.

(** [s.split(c)] for a one-character separator: the pieces between the
    occurrences of [c], empty pieces kept. *)
Fixpoint split_aux (c : N) (cur : t) (s : t) : list t :=
  match s with
  | [] => [rev cur]
  | x :: s' =>
      if N.eqb x c then rev cur :: split_aux c [] s'
      else split_aux c (x :: cur) s'
  end.

Definition split (c : N) (s : t) : list t := split_aux c [] s.

End Str.

(** A string literal of the source, as a Python string. *)
Definition py (s : string) : Str.t := Str.of_string s.

(* ================================================================== *)
(** ** The Unicode tables *)

(** What the [regex] module and [str.lower] look up in the Unicode
    character database. *)
Record unicode_db := {
  u_digit : N -> bool;          (* \d  *)
  u_word : N -> bool;           (* \w  *)
  u_space : N -> bool;          (* \s  *)
  u_letter : N -> bool;         (* \p{L} *)
  u_number : N -> bool;         (* \p{N} *)
  u_currency : N -> bool;       (* \p{Sc} *)
  u_lower : Str.t -> Str.t      (* str.lower *)
}.

Definition in_range (lo hi c : N) : bool := N.leb lo c && N.leb c hi.

Definition ascii_digit (c : N) : bool := in_range 48 57 c.
Definition ascii_letter (c : N) : bool := in_range 65 90 c || in_range 97 122 c.

(** The tables restricted to printable ASCII; nothing outside it belongs
    to a class, and [str.lower] only maps [A-Z]. *)
Definition ascii_db : unicode_db := {|
  u_digit := ascii_digit;
  u_word := fun c => ascii_letter c || ascii_digit c || N.eqb c 95;
  u_space := fun c => N.eqb c 32;
  u_letter := ascii_letter;
  u_number := ascii_digit;
  u_currency := fun c => N.eqb c 36;
  u_lower := map (fun c => if in_range 65 90 c then (c + 32)%N else c)
|}.

Definition printable (c : N) : bool := in_range 32 126 c.

(** A database is [ascii_ok] when its classes are the usual ones on
    printable ASCII: digits are [0-9], letters [A-Za-z], word characters
    letters, digits and the underscore, the only space is U+0020, the only
    currency sign the dollar. *)
Definition ascii_ok (U : unicode_db) : Prop :=
  forall c, printable c = true ->
    u_digit U c = u_digit ascii_db c /\
    u_word U c = u_word ascii_db c /\
    u_space U c = u_space ascii_db c /\
    u_letter U c = u_letter ascii_db c /\
    u_number U c = u_number ascii_db c /\
    u_currency U c = u_currency ascii_db c.

(* ================================================================== *)
(** ** Regular expressions *)

(** An item of a character set [[...]], or a class escape on its own. *)
Inductive citem :=
| Ch (c : N)                 (* a literal character *)
| Rng (lo hi : N)            (* lo-hi *)
| Digit                      (* \d *)
| Word                       (* \w *)
| Space                      (* \s *)
| PropL                      (* \p{L} *)
| PropN                      (* \p{N} *)
| PropSc.                    (* \p{Sc} *)

Inductive regex :=
| Eps
| Any                                   (* .  : anything but a newline *)
| Set_ (items : list citem)             (* [...] or a class escape *)
| Cat (r1 r2 : regex)
| Alt (r1 r2 : regex)                   (* r1|r2, r1 tried first *)
| Star (r : regex)                      (* r*, greedy *)
| Group (name : string) (r : regex)     (* (?P<name>r), or (r) numbered *)
| Cond (name : string) (yes no : regex) (* (?(name)yes|no) *)
| Look (r : regex)                      (* (?=r) *)
| Bol                                   (* ^ *)
| Eol.                                  (* $ *)

Definition Lit (c : N) : regex := Set_ [Ch c].
Definition Opt (r : regex) : regex := Alt r Eps.          (* r? *)
Definition Plus (r : regex) : regex := Cat r (Star r).    (* r+ *)

(** r{n} *)
Fixpoint Times (n : nat) (r : regex) : regex :=
  match n with
  | O => Eps
  | S n' => Cat r (Times n' r)
  end.

(** r{0,n}, greedy *)
Fixpoint UpTo (n : nat) (r : regex) : regex :=
  match n with
  | O => Eps
  | S n' => Opt (Cat r (UpTo n' r))
  end.

(** r{lo,hi} *)
Definition Rep (lo hi : nat) (r : regex) : regex :=
  Cat (Times lo r) (UpTo (hi - lo) r).

(** A sequence r1 r2 ... rn. *)
Fixpoint Seq (rs : list regex) : regex :=
  match rs with
  | [] => Eps
  | [r] => r
  | r :: rs' => Cat r (Seq rs')
  end.

Section Matcher.

Variable U : unicode_db.

Definition citem_mem (i : citem) (c : N) : bool :=
  match i with
  | Ch x => N.eqb c x
  | Rng lo hi => in_range lo hi c
  | Digit => u_digit U c
  | Word => u_word U c
  | Space => u_space U c
  | PropL => u_letter U c
  | PropN => u_number U c
  | PropSc => u_currency U c
  end.

(** The state of a match attempt: how many characters were consumed,
    what is left, and the groups that took part so far. *)
Record mstate := {
  pos : nat;
  rest : Str.t;
  caps : list (string * Str.t)
}.

Definition advance (st : mstate) (s' : Str.t) : mstate :=
  {| pos := S (pos st); rest := s'; caps := caps st |}.

Definition set_group (name : string) (from st : mstate) : mstate :=
  {| pos := pos st; rest := rest st;
     caps := (name, firstn (pos st - pos from) (rest from)) :: caps st |}.

Fixpoint get_group (name : string) (cs : list (string * Str.t)) : option Str.t :=
  match cs with
  | [] => None
  | (n, v) :: cs' => if String.eqb n name then Some v else get_group name cs'
  end.

Definition orelse (a b : option mstate) : option mstate :=
  match a with
  | Some _ => a
  | None => b
  end.

(** [run r st k]: match [r] at [st], then the continuation [k]; the
    alternatives are tried in the order a backtracking engine tries
    them, and the first success is the result. *)
Fixpoint run (r : regex) (st : mstate) (k : mstate -> option mstate)
  {struct r} : option mstate :=
  match r with
  | Eps => k st
  | Any =>
      match rest st with
      | c :: s' => if N.eqb c 10 then None else k (advance st s')
      | [] => None
      end
  | Set_ items =>
      match rest st with
      | c :: s' =>
          if existsb (fun i => citem_mem i c) items then k (advance st s')
          else None
      | [] => None
      end
  | Cat r1 r2 => run r1 st (fun st1 => run r2 st1 k)
  | Alt r1 r2 => orelse (run r1 st k) (run r2 st k)
  | Star r1 =>
      (fix loop (n : nat) (st : mstate) {struct n} : option mstate :=
         match n with
         | O => k st
         | S n' =>
             orelse
               (run r1 st (fun st1 =>
                  if Nat.ltb (pos st) (pos st1) then loop n' st1 else None))
               (k st)
         end) (List.length (rest st)) st
  | Group name r1 => run r1 st (fun st1 => k (set_group name st st1))
  | Cond name yes no =>
      match get_group name (caps st) with
      | Some _ => run yes st k
      | None => run no st k
      end
  | Look r1 =>
      match run r1 st (fun st1 => Some st1) with
      | Some st1 =>
          k {| pos := pos st; rest := rest st; caps := caps st1 |}
      | None => None
      end
  | Bol => if Nat.eqb (pos st) 0 then k st else None
  | Eol =>
      match rest st with
      | [] => k st
      | [c] => if N.eqb c 10 then k st else None
      | _ => None
      end
  end.

(** [pattern.fullmatch(s)]: the match object (here its final state), or
    [None]. *)
Definition fullmatch (r : regex) (s : Str.t) : option mstate :=
  run r {| pos := 0; rest := s; caps := [] |}
    (fun st => match rest st with [] => Some st | _ => None end).

Definition matches (r : regex) (s : Str.t) : bool :=
  match fullmatch r s with Some _ => true | None => false end.

End Matcher.

(* ================================================================== *)
(** ** The pattern catalog *)

(** [ord(c)] of a one-character literal. *)
Definition ord (s : string) : N :=
  match s with
  | String a _ => N_of_ascii a
  | EmptyString => 0%N
  end.

(** The literal characters of a set, in order. *)
Definition chars (s : string) : list citem := map Ch (py s).

(** A literal string. *)
Definition Text (s : string) : regex := Seq (map Lit (py s)).

Definition SPECIALS_ALLOWED : Str.t := [
  (* Periods *)
  46; 1748; 12290; 65106; 65294; 65377;
  (* Parentheses *)
  40; 41; 10222; 10223; 65288; 65289;
  (* Question marks *)
  63; 191; 894; 1374; 1567; 4967; 6469; 8263; 8264; 8265; 11514; 11515;
  11822; 42511; 42743; 65046; 65110; 65311; 69955; 125279;
  (* Exclamation marks *)
  33; 161; 451; 1372; 2041; 4255; 6468; 8252; 8264; 8265; 43639; 65045;
  65111; 65281; 125278
]%N.

(** A Python [dict] with string keys, in insertion order. *)
Definition dict (V : Type) := list (string * V).

Fixpoint dict_get {V} (m : dict V) (key : string) : option V :=
  match m with
  | [] => None
  | (k, v) :: m' => if String.eqb k key then Some v else dict_get m' key
  end.

(** [m[key] = v]: an existing key keeps its place. *)
Fixpoint dict_set {V} (m : dict V) (key : string) (v : V) : dict V :=
  match m with
  | [] => [(key, v)]
  | (k, w) :: m' =>
      if String.eqb k key then (k, v) :: m' else (k, w) :: dict_set m' key v
  end.

(** The literal of the module-level [PATTERNS], as Python reads it: in
    these plain (not raw) literals every backslash is followed by a
    character that is no escape of Python, so it stays.  The two
    "unicode_alphanum" pieces are joined by the escaped characters of
    [SPECIALS_ALLOWED]. *)
Definition PATTERNS_src : dict (list string) := [
  ("number_1", ["(?=[+-\.\d])[+-]?(?:0|[1-9]\d*)?(((?P<dot>\.)?(?(dot)(?P<yes_dot>\d*(\d+[eE][+-]?\d+)?)|(?P<no_dot>([eE][+-]?\d+)?)))|((?P<comma>,)?(?(comma)(?P<yes_comma>\d+(\d+[eE][+-]?\d+)?)|(?P<no_comma>([eE][+-]?\d+)?))))"]);
  ("number_2", ["[+-]?(?:[1-9]|[1-9]\d{0,2})(?:\,\d{3})+\.\d*"]);
  ("number_3", ["[+-]?(?:[1-9]|[1-9]\d{0,2})(?:\.\d{3})+\,\d*"]);
  ("url", ["(?:(?:[A-Za-z]{3,9}:(?:\/\/)?)(?:[-;:&=\+\$,\w]+@)?[A-Za-z0-9.-]+|(?:www.|[-;:&=\+\$,\w]+@)[A-Za-z0-9.-]+)(?:(?:\/[\+~%\/.\w\-_]*)?\??(?:[-\+=&;%@.\w_]*)#?(?:[\w]*))?"]);
  ("email", ["(^[a-zA-Z0-9_.+-]+@[a-zA-Z0-9-]+\.[a-zA-Z0-9-.]+$)"]);
  ("unicode_alphanum", ["(\p{N}+\p{L}+[\p{N}\p{L}\ "; "]*|\p{L}+[\p{N}\p{L}\ "; "]+)"]);
  ("time_hhmmss", ["(0[0-9]|1[0-9]|2[0-3]):([0-5][0-9]):([0-5][0-9])"]);
  ("time_hhmm", ["(0[0-9]|1[0-9]|2[0-3]):([0-5][0-9])"]);
  ("time_HHMM", ["(0[0-9]|1[0-9]|2[0-3])([0-5][0-9])"]);
  ("time_HH", ["(0[0-9]|1[0-9]|2[0-3])([0-5][0-9])"]);
  ("time_hmm", ["([0-9]|1[0-9]|2[0-3]):([0-5][0-9])"]);
  ("currency", ["\p{Sc}\s?(.*)"]);
  ("unix_path", ["[\/~]{1,2}(?:[a-zA-Z0-9\.]+(?:[\/]{1,2}))+(?:[a-zA-Z0-9\.]+)"])
]%string.

(** The patterns as [regex.compile] reads them: the syntax trees of the
    sources above. *)
Module Pat.

Definition d : regex := Set_ [Digit].                       (* \d *)
Definition sign : regex := Set_ (chars "+-").               (* [+-] *)
Definition eE : regex := Set_ (chars "eE").                 (* [eE] *)
Definition d19 : regex := Set_ [Rng (ord "1") (ord "9")].   (* [1-9] *)
Definition d09 : regex := Set_ [Rng (ord "0") (ord "9")].   (* [0-9] *)
Definition d05 : regex := Set_ [Rng (ord "0") (ord "5")].   (* [0-5] *)
Definition d03 : regex := Set_ [Rng (ord "0") (ord "3")].   (* [0-3] *)

(** "[eE][+-]?\d+" *)
Definition exponent : regex := Seq [eE; Opt sign; Plus d].

(** The lookahead, the sign, the integer part, then group 1: the dot
    branch (group 2) or the comma branch (group 8), each with its
    conditional on whether the separator took part.  In the set of the
    lookahead, "+-\." is the range from "+" to ".".  Groups without a
    name carry their number. *)
Definition number_1 : regex :=
  Seq [
    Look (Set_ [Rng (ord "+") (ord "."); Digit]);
    Opt sign;
    Opt (Alt (Lit (ord "0")) (Cat d19 (Star d)));
    Group "1" (Alt
      (Group "2" (Cat
         (Opt (Group "dot" (Lit (ord "."))))
         (Cond "dot"
            (Group "yes_dot"
               (Cat (Star d) (Opt (Group "5" (Cat (Plus d) exponent)))))
            (Group "no_dot" (Opt (Group "7" exponent))))))
      (Group "8" (Cat
         (Opt (Group "comma" (Lit (ord ","))))
         (Cond "comma"
            (Group "yes_comma"
               (Cat (Plus d) (Opt (Group "11" (Cat (Plus d) exponent)))))
            (Group "no_comma" (Opt (Group "13" exponent)))))))
  ].

(** Comma-grouped thousands, dot decimal. *)
Definition number_2 : regex :=
  Seq [
    Opt sign;
    Alt d19 (Cat d19 (Rep 0 2 d));
    Plus (Cat (Lit (ord ",")) (Rep 3 3 d));
    Lit (ord ".");
    Star d
  ].

(** Dot-grouped thousands, comma decimal. *)
Definition number_3 : regex :=
  Seq [
    Opt sign;
    Alt d19 (Cat d19 (Rep 0 2 d));
    Plus (Cat (Lit (ord ".")) (Rep 3 3 d));
    Lit (ord ",");
    Star d
  ].

Definition AZaz : list citem :=
  [Rng (ord "A") (ord "Z"); Rng (ord "a") (ord "z")].
Definition azAZ09 : list citem :=
  [Rng (ord "a") (ord "z"); Rng (ord "A") (ord "Z"); Rng (ord "0") (ord "9")].

(** "[-;:&=\+\$,\w]+@" *)
Definition userinfo : regex :=
  Cat (Plus (Set_ (chars "-;:&=+$," ++ [Word]))) (Lit (ord "@")).

(** "[A-Za-z0-9.-]+" *)
Definition host : regex :=
  Plus (Set_ (AZaz ++ [Rng (ord "0") (ord "9")] ++ chars ".-")).

(** Scheme, optional user and host, or "www." / user and host; then the
    optional path, query and fragment.  The dot of "www." is not
    escaped: it is any character. *)
Definition url : regex :=
  Cat
    (Alt
       (Seq [
          Seq [Rep 3 9 (Set_ AZaz); Lit (ord ":"); Opt (Text "//")];
          Opt userinfo;
          host
        ])
       (Seq [
          Alt (Cat (Text "www") Any) userinfo;
          host
        ]))
    (Opt (Seq [
       Opt (Cat (Lit (ord "/"))
                (Star (Set_ (chars "+~%/." ++ [Word] ++ chars "-_"))));
       Opt (Lit (ord "?"));
       Star (Set_ (chars "-+=&;%@." ++ [Word] ++ chars "_"));
       Opt (Lit (ord "#"));
       Star (Set_ [Word])
     ])).

(** "(^[a-zA-Z0-9_.+-]+@[a-zA-Z0-9-]+\.[a-zA-Z0-9-.]+$)" *)
Definition email : regex :=
  Group "1" (Seq [
    Bol;
    Plus (Set_ (azAZ09 ++ chars "_.+-"));
    Lit (ord "@");
    Plus (Set_ (azAZ09 ++ chars "-"));
    Lit (ord ".");
    Plus (Set_ (azAZ09 ++ chars "-."));
    Eol
  ]).

(** The set "[\p{N}\p{L}\ ...]", where the dots are the escaped
    [SPECIALS_ALLOWED], all of them literal members of the set. *)
Definition alnum_tail : regex :=
  Set_ ([PropN; PropL; Ch (ord " ")] ++ map Ch SPECIALS_ALLOWED).

(** Numbers, letters and a tail; or letters and a non-empty tail. *)
Definition unicode_alphanum : regex :=
  Group "1" (Alt
    (Seq [Plus (Set_ [PropN]); Plus (Set_ [PropL]); Star alnum_tail])
    (Seq [Plus (Set_ [PropL]); Plus alnum_tail])).

(** "(0[0-9]|1[0-9]|2[0-3])" *)
Definition hh : regex :=
  Group "1" (Alt (Cat (Lit (ord "0")) d09)
            (Alt (Cat (Lit (ord "1")) d09)
                 (Cat (Lit (ord "2")) d03))).

(** "([0-9]|1[0-9]|2[0-3])" *)
Definition h : regex :=
  Group "1" (Alt d09
            (Alt (Cat (Lit (ord "1")) d09)
                 (Cat (Lit (ord "2")) d03))).

(** "([0-5][0-9])" *)
Definition mm (g : string) : regex := Group g (Cat d05 d09).

Definition time_hhmmss : regex :=
  Seq [hh; Lit (ord ":"); mm "2"; Lit (ord ":"); mm "3"].
Definition time_hhmm : regex := Seq [hh; Lit (ord ":"); mm "2"].
Definition time_HHMM : regex := Seq [hh; mm "2"].
Definition time_HH : regex := Seq [hh; mm "2"].
Definition time_hmm : regex := Seq [h; Lit (ord ":"); mm "2"].

(** A currency sign, an optional space, and group 1: the remainder. *)
Definition currency : regex :=
  Seq [Set_ [PropSc]; Opt (Set_ [Space]); Group "1" (Star Any)].

(** "[\/~]{1,2}(?:[a-zA-Z0-9\.]+(?:[\/]{1,2}))+(?:[a-zA-Z0-9\.]+)" *)
Definition unix_path : regex :=
  Seq [
    Rep 1 2 (Set_ (chars "/~"));
    Plus (Cat (Plus (Set_ (azAZ09 ++ chars ".")))
              (Rep 1 2 (Set_ (chars "/"))));
    Plus (Set_ (azAZ09 ++ chars "."))
  ].

End Pat.

Definition PATTERNS : dict regex := [
  ("number_1", Pat.number_1);
  ("number_2", Pat.number_2);
  ("number_3", Pat.number_3);
  ("url", Pat.url);
  ("email", Pat.email);
  ("unicode_alphanum", Pat.unicode_alphanum);
  ("time_hhmmss", Pat.time_hhmmss);
  ("time_hhmm", Pat.time_hhmm);
  ("time_HHMM", Pat.time_HHMM);
  ("time_HH", Pat.time_HH);
  ("time_hmm", Pat.time_hmm);
  ("currency", Pat.currency);
  ("unix_path", Pat.unix_path)
]%string.

(* ================================================================== *)
(** ** Exceptions *)

Inductive exn := AttributeError | IndexError | NameError.

Inductive res (A : Type) :=
| Ok (a : A)
| Raise (e : exn).

Arguments Ok {A} a.
Arguments Raise {A} e.

Definition bind {A B} (m : res A) (f : A -> res B) : res B :=
  match m with
  | Ok a => f a
  | Raise e => Raise e
  end.

Notation "x <- m ;; k" := (bind m (fun x => k))
  (at level 61, m at next level, right associativity).

(** [a or b] and [a and b] on booleans, the right operand evaluated only
    when the left one does not decide. *)
Definition or_ (a b : res bool) : res bool :=
  x <- a ;; if x then Ok true else b.
Definition and_ (a b : res bool) : res bool :=
  x <- a ;; if x then b else Ok false.

(** [xs[i]] *)
Definition index {A} (xs : list A) (i : nat) : res A :=
  match nth_error xs i with
  | Some x => Ok x
  | None => Raise IndexError
  end.

(* ================================================================== *)
(** ** TypeDetector *)

Record TypeDetector := {
  patterns : dict regex;
  strip_whitespace : bool
}.

Module DatePat.

Import Pat.

Definition year2 : regex := Rep 2 2 d.                  (* (?:\d{2}) *)
Definition year4 : regex := Cat (Set_ (chars "12")) (Rep 3 3 d).
                                                        (* (?:[12]\d{3}) *)
Definition d02 : regex := Set_ [Rng (ord "0") (ord "2")].
Definition d12 : regex := Set_ (chars "12").
Definition d01 : regex := Set_ (chars "01").

(** (?:0[1-9]|1[0-2]) *)
Definition month_leading : regex :=
  Alt (Cat (Lit (ord "0")) d19) (Cat (Lit (ord "1")) d02).
(** (?:[1-9]|1[0-2]) *)
Definition month_sparse : regex :=
  Alt d19 (Cat (Lit (ord "1")) d02).
(** (?:0[1-9]|[12]\d|3[01]) *)
Definition day_leading : regex :=
  Alt (Cat (Lit (ord "0")) d19) (Alt (Cat d12 d) (Cat (Lit (ord "3")) d01)).
(** (?:[1-9]|[12]\d|3[01]) *)
Definition day_sparse : regex :=
  Alt d19 (Alt (Cat d12 d) (Cat (Lit (ord "3")) d01)).

(** [-/\.\ ] *)
Definition sep : regex := Set_ (chars "-/. ").

(** The three formats with a separator, and the two with the Chinese
    and the Korean words for year, month and day. *)
Definition pat_1 (year month day sep : regex) := Seq [year; sep; month; sep; day].
Definition pat_2 (year month day sep : regex) := Seq [day; sep; month; sep; year].
Definition pat_3 (year month day sep : regex) := Seq [month; sep; day; sep; year].
Definition pat_cn (year month day : regex) :=
  Seq [year; Lit 24180; month; Lit 26376; day; Lit 26085].
Definition pat_ko (year month day : regex) :=
  Seq [year; Lit 45380; month; Lit 50900; day; Lit 51068].

(** "date_%i" % counter *)
Definition date_key (counter : nat) : string :=
  "date_" ++ DecimalString.NilEmpty.string_of_uint (Nat.to_uint counter).

(** The variables of [_init_date_patterns] that live across its loops:
    the dictionary, [counter], and [pat_cn], unbound before the first
    loop body has run. *)
Record locals := {
  l_patterns : dict regex;
  l_counter : nat;
  l_pat_cn : option regex
}.

(** for pattern in pats: patterns["date_%i" % counter] = pattern;
    counter += 1 *)
Definition store_all (pats : list regex) (l : locals) : locals :=
  fold_left (fun l pattern =>
    {| l_patterns := dict_set (l_patterns l) (date_key (l_counter l)) pattern;
       l_counter := S (l_counter l);
       l_pat_cn := l_pat_cn l |}) pats l.

Definition first_loop (l : locals) : locals :=
  fold_left (fun l year =>
    fold_left (fun l month =>
      fold_left (fun l day =>
        let cn := pat_cn year month day in
        store_all
          [pat_1 year month day sep; pat_2 year month day sep;
           pat_3 year month day sep; cn; pat_ko year month day]
          {| l_patterns := l_patterns l; l_counter := l_counter l;
             l_pat_cn := Some cn |})
        [day_leading; day_sparse] l)
      [month_leading; month_sparse] l)
    [year2; year4] l.

(** The compact formats: the separator is the empty string.  The list of
    the inner loop names [pat_cn], which this loop does not assign: it
    is the one left by the first loop. *)
Definition second_loop (l : locals) : res locals :=
  fold_left (fun (rl : res locals) year =>
    l <- rl ;;
    match l_pat_cn l with
    | None => Raise NameError
    | Some cn =>
        Ok (store_all
              [pat_1 year month_leading day_leading Eps;
               pat_2 year month_leading day_leading Eps;
               pat_3 year month_leading day_leading Eps; cn] l)
    end)
    [year2; year4] (Ok l).

End DatePat.

Definition _init_date_patterns (pats : dict regex) : res (dict regex) :=
  let l := DatePat.first_loop
             {| DatePat.l_patterns := pats; DatePat.l_counter := 0;
                DatePat.l_pat_cn := None |} in
  l' <- DatePat.second_loop l ;;
  Ok (DatePat.l_patterns l').

(** [regex.compile]: a pattern is its syntax tree, also when it is
    compiled again. *)
Definition compile (r : regex) : regex := r.

Definition _compile_regexes (pats : dict regex) : dict regex :=
  fold_left (fun m kv => dict_set m (fst kv) (compile (snd kv))) pats pats.

(** [TypeDetector(strip_whitespace)].  [self.patterns] is the module-level
    dictionary itself, not a copy: [module_patterns] is what it holds when
    the detector is built, and the patterns of the new detector are what
    it holds afterwards. *)
Definition __init__ (module_patterns : dict regex) (strip : bool)
  : res TypeDetector :=
  pats <- _init_date_patterns module_patterns ;;
  Ok {| patterns := _compile_regexes pats; strip_whitespace := strip |}.

(** The detector of a fresh process. *)
Definition detector (strip : bool) : TypeDetector :=
  match __init__ PATTERNS strip with
  | Ok td => td
  | Raise _ => {| patterns := []; strip_whitespace := strip |}
  end.

Section Detector.

Variable U : unicode_db.
Variable self : TypeDetector.

(** if self.strip_whitespace: cell = cell.strip(" ") *)
Definition stripped (cell : Str.t) : Str.t :=
  if strip_whitespace self then Str.strip (ord " ") cell else cell.

Definition _run_regex (cell : Str.t) (patname : string) : res bool :=
  let cell := stripped cell in
  match dict_get (patterns self) patname with
  | None => Raise AttributeError
  | Some pat =>
      match fullmatch U pat cell with
      | Some _ => Ok true
      | None => Ok false
      end
  end.

Definition is_number (cell : Str.t) : res bool :=
  if Str.eqb cell [] then Ok false else
  b1 <- _run_regex cell "number_1" ;;
  if b1 then Ok true else
  b2 <- _run_regex cell "number_2" ;;
  if b2 then Ok true else
  b3 <- _run_regex cell "number_3" ;;
  if b3 then Ok true else
  Ok false.

Definition is_url_or_email (cell : Str.t) : res bool :=
  or_ (_run_regex cell "url") (_run_regex cell "email").

Definition is_unicode_alphanum (cell : Str.t) : res bool :=
  _run_regex cell "unicode_alphanum".

(** for patname in self.patterns: ... *)
Fixpoint is_date_loop (cell : Str.t) (keys : list string) : res bool :=
  match keys with
  | [] => Ok false
  | patname :: keys' =>
      if String.prefix "date_" patname then
        b <- _run_regex cell patname ;;
        if b then Ok true else is_date_loop cell keys'
      else is_date_loop cell keys'
  end.

Definition is_date (cell : Str.t) : res bool :=
  n <- is_number cell ;;
  if n then Ok false else
  is_date_loop cell (map fst (patterns self)).

Definition is_time (cell : Str.t) : res bool :=
  or_ (_run_regex cell "time_hmm")
    (or_ (_run_regex cell "time_hhmm")
         (_run_regex cell "time_hhmmss")).

Definition is_empty (cell : Str.t) : res bool :=
  let cell := stripped cell in
  Ok (Str.eqb cell []).

Definition is_percentage (cell : Str.t) : res bool :=
  let cell := stripped cell in
  and_ (Ok (Str.endswith (ord "%") cell))
       (is_number (Str.rstrip (ord "%") cell)).

Definition is_currency (cell : Str.t) : res bool :=
  let cell := stripped cell in
  match dict_get (patterns self) "currency" with
  | None => Raise AttributeError
  | Some pat =>
      match fullmatch U pat cell with
      | None => Ok false
      | Some m =>
          (* grp = m.group(1) *)
          match get_group "1" (caps m) with
          | None => Raise IndexError
          | Some grp =>
              n <- is_number grp ;;
              if negb n then Ok false else Ok true
          end
      end
  end.

(** The body of the branches for "+" and for "-" of [is_datetime], which
    differ in the separator only.  [None]: the branch ends without a
    [return]. *)
Definition offset_branch (sep : N) (part : Str.t) : res (option bool) :=
  let subparts := Str.split sep part in
  s0 <- index subparts 0 ;;
  istime1 <- is_time s0 ;;
  s1 <- index subparts 1 ;;
  istime2 <- is_time s1 ;;
  if negb istime1 then Ok (Some false) else
  if istime2 then Ok (Some true) else
  s1 <- index subparts 1 ;;
  b <- _run_regex s1 "time_HHMM" ;;
  if b then Ok (Some true) else
  s1 <- index subparts 1 ;;
  b <- _run_regex s1 "time_HH" ;;
  if b then Ok (Some true) else
  Ok None.

Definition is_datetime (cell : Str.t) : res bool :=
  if Str.contains (ord " ") cell then
    let parts := Str.split (ord " ") cell in
    if Nat.ltb 2 (List.length parts) then Ok false else
    and_ (p0 <- index parts 0 ;; is_date p0)
         (p1 <- index parts 1 ;; is_time p1)
  else if Str.contains (ord "T") cell then
    let parts := Str.split (ord "T") cell in
    if Nat.ltb 2 (List.length parts) then Ok false else
    p0 <- index parts 0 ;;
    isdate <- is_date p0 ;;
    if negb isdate then Ok false else
    p1 <- index parts 1 ;;
    t <- is_time p1 ;;
    if t then Ok true else
    p1 <- index parts 1 ;;
    r <- (if Str.contains (ord "+") p1 then offset_branch (ord "+") p1
          else if Str.contains (ord "-") p1 then offset_branch (ord "-") p1
          else Ok None) ;;
    match r with
    | Some b => Ok b
    | None => Ok false
    end
  else Ok false.

Definition is_nan (cell : Str.t) : res bool :=
  let cell := stripped cell in
  if Str.eqb (u_lower U cell) (py "n/a") then Ok true else Ok false.

Definition type_tests : list (string * (Str.t -> res bool)) := [
  ("empty", is_empty);
  ("url_or_email", is_url_or_email);
  ("number", is_number);
  ("time", is_time);
  ("percentage", is_percentage);
  ("currency", is_currency);
  ("unicode_alphanum", is_unicode_alphanum);
  ("nan", is_nan);
  ("date", is_date);
  ("datetime", is_datetime)
]%string.

(** for name, func in type_tests: if func(cell): return name *)
Fixpoint detect_loop (tests : list (string * (Str.t -> res bool)))
  (cell : Str.t) : res (option string) :=
  match tests with
  | [] => Ok None
  | (name, func) :: tests' =>
      b <- func cell ;;
      if b then Ok (Some name) else detect_loop tests' cell
  end.

(** The label, or [None]: the cell has no known type. *)
Definition detect_type (cell : Str.t) : res (option string) :=
  detect_loop type_tests cell.

(** not (self.detect_type(cell) is None) *)
Definition is_known_type (cell : Str.t) : res bool :=
  t <- detect_type cell ;;
  Ok (negb (match t with None => true | Some _ => false end)).

End Detector.

(* ================================================================== *)
(** ** The type score *)

(** [max(a, b)]: the second argument only when it is greater. *)
Definition py_max (a b : Q) : Q := if Qle_bool b a then a else b.

Section Scorer.

Variable U : unicode_db.

(** [ccsv.parser.parse_data] and its dialects are not part of this
    module: a parser is any function from the data and a dialect to
    rows of cells. *)
Variable Dialect : Type.
Variable parse_data : Str.t -> Dialect -> list (list Str.t).

(** [known / total], the true division of two integers.  A float is
    modelled by the rational it denotes; [fdiv known total] is the float
    the division returns. *)
Variable fdiv : Z -> Z -> Q.

(** total += 1; known += td.is_known_type(cell) *)
Definition count_cell (td : TypeDetector) (acc : res (Z * Z)) (cell : Str.t)
  : res (Z * Z) :=
  tk <- acc ;;
  b <- is_known_type U td cell ;;
  Ok (fst tk + 1, snd tk + (if b then 1 else 0))%Z.

Definition count_cells (td : TypeDetector) (rows : list (list Str.t))
  : res (Z * Z) :=
  fold_left (fun acc row => fold_left (count_cell td) row acc) rows (Ok (0, 0)%Z).

Definition type_score (data : Str.t) (dialect : Dialect) (eps : Q) : res Q :=
  td <- __init__ PATTERNS true ;;
  tk <- count_cells td (parse_data data dialect) ;;
  let total := fst tk in
  let known := snd tk in
  if Z.eqb total 0 then Ok eps
  else Ok (py_max eps (fdiv known total)).

End Scorer.

(** The division of the reals, for the floats that hold it exactly. *)
Definition exact_div (known total : Z) : Q :=
  (inject_Z known / inject_Z total)%Q.

(** What the score needs of the float division: between the integers [0]
    and [total] the quotient by [total] is between [0] and [1], and
    [total / total] is [1]. *)
Definition fdiv_ok (fdiv : Z -> Z -> Q) : Prop :=
  forall known total, (0 < total)%Z -> (0 <= known <= total)%Z ->
    (0 <= fdiv known total /\ fdiv known total <= 1 /\
     fdiv total total == 1)%Q.

(** The default of [eps]. *)
Definition DEFAULT_EPS_TYPE : Q := (1 # 10000000000)%Q.

(* ================================================================== *)
(** ** Notions used to state the properties *)

(** An evaluation that returns a value: it does not raise. *)
Definition safe {A} (r : res A) : Prop := exists a, r = Ok a.

Definition has_key {V} (m : dict V) (key : string) : bool :=
  match dict_get m key with
  | Some _ => true
  | None => false
  end.

Fixpoint distinct (keys : list string) : bool :=
  match keys with
  | [] => true
  | k :: keys' => negb (existsb (String.eqb k) keys') && distinct keys'
  end.

(** Every test of [ts] is false for [cell]. *)
Definition all_false (cell : Str.t) (ts : list (string * (Str.t -> res bool)))
  : Prop :=
  Forall (fun t => snd t cell = Ok false) ts.

(** [name] is the label of the first test of [ts] that is true for
    [cell]. *)
Definition first_true (cell : Str.t) (ts : list (string * (Str.t -> res bool)))
  (name : string) : Prop :=
  exists pre func post,
    ts = pre ++ (name, func) :: post /\ func cell = Ok true /\
    all_false cell pre.

(** A string of printable ASCII. *)
Definition str_ok (s : Str.t) : Prop := forallb printable s = true.

(** The Date Format Space of a detector: the patterns it holds under the
    keys that start with "date_". *)
Definition date_patterns (td : TypeDetector) : list regex :=
  map snd (filter (fun kv => String.prefix "date_" (fst kv)) (patterns td)).

(** Four ASCII digits, the first two an hour of 00 to 23, the last two a
    minute of 00 to 59. *)
Definition hhmm_form (s : Str.t) : bool :=
  match s with
  | [h1; h2; m1; m2] =>
      ascii_digit h1 && ascii_digit h2 && ascii_digit m1 && ascii_digit m2 &&
      N.leb (10 * (h1 - 48) + (h2 - 48)) 23 &&
      N.leb (10 * (m1 - 48) + (m2 - 48)) 59
  | _ => false
  end.

(** The character tests of the pattern "(0[0-9]|1[0-9]|2[0-3])([0-5][0-9])". *)
Definition hhmm_tests (a b c d : N) : bool :=
  (N.eqb a 48 && in_range 48 57 b || N.eqb a 49 && in_range 48 57 b
   || N.eqb a 50 && in_range 48 51 b)
  && in_range 48 53 c && in_range 48 57 d.

(** [is_known_type] as a test on cells. *)
Definition knownb (U : unicode_db) (td : TypeDetector) (cell : Str.t) : bool :=
  match is_known_type U td cell with
  | Ok true => true
  | _ => false
  end.

(* ================================================================== *)
(** ** The companion generator *)

(** for cell in cells: yield td.is_known_type(cell) *)
Fixpoint yield_known (U : unicode_db) (td : TypeDetector) (cells : list Str.t)
  : res (list bool) :=
  match cells with
  | [] => Ok []
  | cell :: cells' =>
      b <- is_known_type U td cell ;;
      bs <- yield_known U td cells' ;;
      Ok (b :: bs)
  end.

(** [gen_known_type(cells)]: the values the generator yields when it is
    consumed to its end, in order. *)
Definition gen_known_type (U : unicode_db) (cells : list Str.t)
  : res (list bool) :=
  td <- __init__ PATTERNS true ;;
  yield_known U td cells.

(* ================================================================== *)
(** ** More notions used to state the properties *)

(** Two ASCII digits that read as a number of at most [max]. *)
Definition two_digits (a b max : N) : bool :=
  ascii_digit a && ascii_digit b && N.leb (10 * (a - 48) + (b - 48)) max.

(** H:MM, HH:MM or HH:MM:SS, the hour at most 23, minute and second at
    most 59. *)
Definition time_form (s : Str.t) : bool :=
  match s with
  | [h; c1; m1; m2] =>
      ascii_digit h && N.eqb c1 58 && two_digits m1 m2 59
  | [h1; h2; c1; m1; m2] =>
      two_digits h1 h2 23 && N.eqb c1 58 && two_digits m1 m2 59
  | [h1; h2; c1; m1; m2; c2; s1; s2] =>
      two_digits h1 h2 23 && N.eqb c1 58 && two_digits m1 m2 59 &&
      N.eqb c2 58 && two_digits s1 s2 59
  | _ => false
  end.

(** [c] can be consumed at some place of [r]. *)
Fixpoint consumable (U : unicode_db) (r : regex) (c : N) : bool :=
  match r with
  | Eps | Bol | Eol | Look _ => false
  | Any => negb (N.eqb c 10)
  | Set_ items => existsb (fun i => citem_mem U i c) items
  | Cat r1 r2 | Alt r1 r2 | Cond _ r1 r2 => consumable U r1 c || consumable U r2 c
  | Star r1 | Group _ r1 => consumable U r1 c
  end.

(** The characters of a number: digits, the signs, the dot, the comma and
    the exponent letter. *)
Definition number_char (U : unicode_db) (c : N) : bool :=
  u_digit U c || ascii_digit c || existsb (N.eqb c) (py "+-.,eE").

(** The entries [_init_date_patterns] writes, in the order it writes
    them: the keys "date_0" to "date_47" with their patterns. *)
Definition date_entries : list (string * regex) :=
  combine (map DatePat.date_key (seq 0 48))
    (flat_map (fun year =>
       flat_map (fun month =>
         flat_map (fun day =>
           [DatePat.pat_1 year month day DatePat.sep;
            DatePat.pat_2 year month day DatePat.sep;
            DatePat.pat_3 year month day DatePat.sep;
            DatePat.pat_cn year month day;
            DatePat.pat_ko year month day])
           [DatePat.day_leading; DatePat.day_sparse])
         [DatePat.month_leading; DatePat.month_sparse])
       [DatePat.year2; DatePat.year4]
     ++
     flat_map (fun year =>
       [DatePat.pat_1 year DatePat.month_leading DatePat.day_leading Eps;
        DatePat.pat_2 year DatePat.month_leading DatePat.day_leading Eps;
        DatePat.pat_3 year DatePat.month_leading DatePat.day_leading Eps;
        DatePat.pat_cn DatePat.year4 DatePat.month_sparse DatePat.day_sparse])
       [DatePat.year2; DatePat.year4]).

(** d[k] = v for each entry (k, v), in order. *)
Definition dict_update {V} (m : dict V) (entries : list (string * V)) : dict V :=
  fold_left (fun m kv => dict_set m (fst kv) (snd kv)) entries m.

(** What follows a "T": on the separator [sep], a time, then a time or
    four digits HHMM; what follows a third separator is not looked at. *)
Definition offset_form (td : TypeDetector) (sep : N) (t : Str.t) : bool :=
  match Str.split sep t with
  | s0 :: s1 :: _ =>
      time_form (stripped td s0) &&
      (time_form (stripped td s1) || hhmm_form (stripped td s1))
  | _ => false
  end.

(** A time, or a time with an offset after "+", or, when there is no
    "+", after "-". *)
Definition iso_time_form (td : TypeDetector) (t : Str.t) : bool :=
  time_form (stripped td t) ||
  (if Str.contains (ord "+") t then offset_form td (ord "+") t
   else if Str.contains (ord "-") t then offset_form td (ord "-") t
   else false).

(** What group 1 of the currency pattern holds for the characters that
    follow the currency sign: all of them, but for one leading
    whitespace character. *)
Definition currency_remainder (U : unicode_db) (body : Str.t) : Str.t :=
  match body with
  | w :: body' => if u_space U w then body' else body
  | [] => []
  end.

Definition no_newline (s : Str.t) : bool :=
  forallb (fun c => negb (N.eqb c 10)) s.

(** The characters an alphanumeric cell may hold: letters, numbers, the
    space and the allowed specials. *)
Definition alnum_char (U : unicode_db) (c : N) : bool :=
  u_letter U c || u_number U c || N.eqb c (ord " ")
  || existsb (N.eqb c) SPECIALS_ALLOWED.

(** The characters of a date: digits, the separators and the Chinese and
    Korean words for year, month and day. *)
Definition date_char (U : unicode_db) (c : N) : bool :=
  u_digit U c || ascii_digit c ||
  existsb (N.eqb c)
    (py "-/. " ++ [24180; 26376; 26085; 45380; 50900; 51068])%N.

(** Every character a pattern can consume is a character of a date. *)
Definition date_piece (U : unicode_db) (r : regex) : Prop :=
  forall c, consumable U r c = true -> date_char U c = true.

(** The answer of a predicate, [false] when it raises. *)
Definition holds (r : res bool) : bool :=
  match r with
  | Ok b => b
  | Raise _ => false
  end.

(* ================================================================== *)
(** * Properties *)

(** ** Strings *)

Lemma Str_eqb_eq a b : Str.eqb a b = true <-> a = b.
Proof.
  unfold Str.eqb; destruct (list_eq_dec N.eq_dec a b); split; congruence.
Qed.

Lemma lstrip_app_last c x l :
  x <> c -> Str.lstrip c (l ++ [x]) = Str.lstrip c l ++ [x].
Proof.
  intros Hx; induction l as [|y l IH]; simpl.
  - destruct (N.eqb_spec x c); [contradiction | reflexivity].
  - destruct (N.eqb y c); [exact IH | reflexivity].
Qed.

Lemma rstrip_cons c x l :
  x <> c -> Str.rstrip c (x :: l) = x :: Str.rstrip c l.
Proof.
  intros Hx; unfold Str.rstrip; simpl.
  rewrite lstrip_app_last by exact Hx.
  rewrite rev_app_distr; reflexivity.
Qed.

Lemma lstrip_cons_ne c x l : x <> c -> Str.lstrip c (x :: l) = x :: l.
Proof.
  intros Hx; simpl; destruct (N.eqb_spec x c); [contradiction | reflexivity].
Qed.

Lemma strip_cons_ne c x l :
  x <> c -> Str.strip c (x :: l) = x :: Str.rstrip c l.
Proof.
  intros Hx; unfold Str.strip.
  rewrite lstrip_cons_ne by exact Hx. apply rstrip_cons; exact Hx.
Qed.

Lemma lstrip_idem c l : Str.lstrip c (Str.lstrip c l) = Str.lstrip c l.
Proof.
  induction l as [|x l IH]; simpl; [reflexivity|].
  destruct (N.eqb x c) eqn:E; [exact IH|].
  simpl; rewrite E; reflexivity.
Qed.

Lemma rstrip_idem c l : Str.rstrip c (Str.rstrip c l) = Str.rstrip c l.
Proof.
  unfold Str.rstrip; rewrite rev_involutive, lstrip_idem; reflexivity.
Qed.

(** Stripping the right end leaves a stripped left end stripped. *)
Lemma lstrip_rstrip c l :
  Str.lstrip c (Str.rstrip c (Str.lstrip c l)) = Str.rstrip c (Str.lstrip c l).
Proof.
  destruct (Str.lstrip c l) as [|x m] eqn:E; [reflexivity|].
  assert (Hx : x <> c).
  { clear -E. induction l as [|y l IH]; simpl in E; [discriminate|].
    destruct (N.eqb_spec y c) as [->|Hy]; [auto|].
    injection E as <- _; exact Hy. }
  rewrite rstrip_cons by exact Hx. apply lstrip_cons_ne; exact Hx.
Qed.

Lemma strip_idem c l : Str.strip c (Str.strip c l) = Str.strip c l.
Proof.
  unfold Str.strip. rewrite lstrip_rstrip. apply rstrip_idem.
Qed.

Lemma split_aux_length c cur s :
  List.length (Str.split_aux c cur s) =
  S (List.length (filter (fun x => N.eqb x c) s)).
Proof.
  revert cur; induction s as [|x s IH]; intros cur; simpl; [reflexivity|].
  destruct (N.eqb x c); simpl; rewrite IH; reflexivity.
Qed.

(** A string that contains the separator splits into two parts at least:
    the indices 0 and 1 of the parts exist. *)
Lemma split_contains c s :
  Str.contains c s = true -> 2 <= List.length (Str.split c s).
Proof.
  unfold Str.split, Str.contains; rewrite split_aux_length; intros H.
  apply existsb_exists in H; destruct H as [x [Hin Hx]].
  apply N.eqb_eq in Hx; subst x.
  assert (In c (filter (fun x => N.eqb x c) s)).
  { apply filter_In; split; [exact Hin | apply N.eqb_refl]. }
  destruct (filter (fun x => N.eqb x c) s); [contradiction | simpl; lia].
Qed.

(** ** The matcher *)

Section MatcherFacts.

Variable U : unicode_db.

(** A match is always delivered by the continuation. *)
Lemma run_result r : forall st k m,
  run U r st k = Some m -> exists st', k st' = Some m.
Proof.
  induction r as [| |items|r1 IH1 r2 IH2|r1 IH1 r2 IH2|r1 IH1
                 |name r1 IH1|name yes IHy no IHn|r1 IH1| |];
    intros st k m; simpl.
  - eauto.
  - destruct (rest st) as [|c s']; [discriminate|].
    destruct (N.eqb c 10); [discriminate | eauto].
  - destruct (rest st) as [|c s']; [discriminate|].
    destruct (existsb _ items); [eauto | discriminate].
  - intros H; apply IH1 in H; destruct H as [st1 H]; eapply IH2; exact H.
  - unfold orelse; destruct (run U r1 st k) eqn:E.
    + intros H; rewrite H in E; eapply IH1; exact E.
    + apply IH2.
  - generalize (List.length (rest st)); intros n; revert st.
    induction n as [|n IHn]; intros st; [eauto|].
    unfold orelse at 1.
    match goal with |- match ?X with _ => _ end = _ -> _ => destruct X eqn:E end.
    + intros H; rewrite H in E; apply IH1 in E; destruct E as [st1 E].
      destruct (Nat.ltb (pos st) (pos st1)); [|discriminate].
      eapply IHn; exact E.
    + eauto.
  - intros H; apply IH1 in H; destruct H as [st1 H]; eauto.
  - destruct (get_group name (caps st)); [apply IHy | apply IHn].
  - destruct (run U r1 st (fun st1 => Some st1)); [eauto | discriminate].
  - destruct (Nat.eqb (pos st) 0); [eauto | discriminate].
  - destruct (rest st) as [|c [|c' s']]; [eauto | | discriminate].
    destruct (N.eqb c 10); [eauto | discriminate].
Qed.

(** Group 1 of the currency pattern takes part in every match. *)
Lemma currency_group s m :
  fullmatch U Pat.currency s = Some m -> get_group "1" (caps m) <> None.
Proof.
  unfold fullmatch, Pat.currency, Seq; intros H.
  change (run U (Cat ?a (Cat ?b (Group ?n ?c))) ?st ?k)
    with (run U a st (fun st1 => run U b st1 (fun st2 =>
            run U c st2 (fun st3 => k (set_group n st2 st3))))) in H.
  apply run_result in H; destruct H as [st1 H].
  apply run_result in H; destruct H as [st2 H].
  apply run_result in H; destruct H as [st3 H].
  simpl in H. destruct (rest st3); [|discriminate].
  injection H as <-; simpl; discriminate.
Qed.

End MatcherFacts.

(** ** Evaluations that do not raise *)

Lemma safe_Ok {A} (a : A) : safe (Ok a).
Proof. exists a; reflexivity. Qed.

Lemma safe_bind {A B} (m : res A) (f : A -> res B) :
  safe m -> (forall a, m = Ok a -> safe (f a)) -> safe (bind m f).
Proof.
  intros [a Ha] Hf; rewrite Ha; simpl; apply Hf; exact Ha.
Qed.

Lemma bind_cong {A B} (m m' : res A) (f g : A -> res B) :
  m = m' -> (forall a, m' = Ok a -> f a = g a) -> bind m f = bind m' g.
Proof.
  intros -> H; destruct m' as [a|e]; simpl; [apply H|]; reflexivity.
Qed.

Lemma safe_or (a b : res bool) : safe a -> safe b -> safe (or_ a b).
Proof.
  intros Ha Hb; apply safe_bind; [exact Ha|].
  intros [|] _; [apply safe_Ok | exact Hb].
Qed.

Lemma safe_and (a b : res bool) :
  safe a -> (a = Ok true -> safe b) -> safe (and_ a b).
Proof.
  intros Ha Hb; apply safe_bind; [exact Ha|].
  intros [|] E; [apply Hb; exact E | apply safe_Ok].
Qed.

Lemma safe_index {A} (xs : list A) i : i < List.length xs -> safe (index xs i).
Proof.
  intros H; unfold index.
  destruct (nth_error xs i) eqn:E; [apply safe_Ok|].
  apply nth_error_None in E; lia.
Qed.

Lemma has_key_In {V} (m : dict V) key :
  In key (map fst m) -> has_key m key = true.
Proof.
  unfold has_key; induction m as [|[k v] m IH]; simpl; [tauto|].
  intros [->|H].
  - rewrite String.eqb_refl; reflexivity.
  - destruct (String.eqb k key); [reflexivity | apply IH; exact H].
Qed.

(** The construction of a detector does not raise, and a detector built
    later in the same process, from the module-level dictionary the first
    one left, has the same patterns. *)
Lemma init_detector strip : __init__ PATTERNS strip = Ok (detector strip).
Proof. destruct strip; vm_compute; reflexivity. Qed.

Lemma init_again strip strip' :
  __init__ (patterns (detector strip)) strip' = Ok (detector strip').
Proof. destruct strip, strip'; vm_compute; reflexivity. Qed.

Opaque detector.

Section Totality.

Variable U : unicode_db.
Variable strip : bool.

Local Abbreviation td := (detector strip).

Lemma run_regex_safe cell name :
  has_key (patterns td) name = true -> safe (_run_regex U td cell name).
Proof.
  unfold has_key, _run_regex; intros H.
  destruct (dict_get (patterns td) name); [|discriminate].
  destruct (fullmatch U r (stripped td cell)); apply safe_Ok.
Qed.

Ltac known_key := apply run_regex_safe; destruct strip; vm_compute; reflexivity.

Lemma is_empty_safe cell : safe (is_empty td cell).
Proof. apply safe_Ok. Qed.

Lemma is_number_safe cell : safe (is_number U td cell).
Proof.
  unfold is_number. destruct (Str.eqb cell []); [apply safe_Ok|].
  apply safe_bind; [known_key|]. intros [|] _; [apply safe_Ok|].
  apply safe_bind; [known_key|]. intros [|] _; [apply safe_Ok|].
  apply safe_bind; [known_key|]. intros [|] _; apply safe_Ok.
Qed.

Lemma is_url_or_email_safe cell : safe (is_url_or_email U td cell).
Proof. apply safe_or; known_key. Qed.

Lemma is_unicode_alphanum_safe cell : safe (is_unicode_alphanum U td cell).
Proof. unfold is_unicode_alphanum; known_key. Qed.

Lemma is_time_safe cell : safe (is_time U td cell).
Proof.
  unfold is_time. apply safe_or; [known_key|]. apply safe_or; known_key.
Qed.

Lemma is_date_loop_safe cell keys :
  (forall k, In k keys -> has_key (patterns td) k = true) ->
  safe (is_date_loop U td cell keys).
Proof.
  induction keys as [|k keys IH]; intros Hk; simpl; [apply safe_Ok|].
  assert (Hrest : safe (is_date_loop U td cell keys)).
  { apply IH; intros k' Hin; apply Hk; right; exact Hin. }
  destruct (String.prefix "date_" k); [|exact Hrest].
  apply safe_bind.
  - apply run_regex_safe, Hk; left; reflexivity.
  - intros [|] _; [apply safe_Ok | exact Hrest].
Qed.

Lemma is_date_safe cell : safe (is_date U td cell).
Proof.
  apply safe_bind; [apply is_number_safe|].
  intros [|] _; [apply safe_Ok|].
  apply is_date_loop_safe; intros k; apply has_key_In.
Qed.

Lemma is_percentage_safe cell : safe (is_percentage U td cell).
Proof.
  apply safe_and; [apply safe_Ok | intros _; apply is_number_safe].
Qed.

Lemma currency_pattern :
  dict_get (patterns td) "currency" = Some Pat.currency.
Proof. destruct strip; vm_compute; reflexivity. Qed.

Lemma is_currency_safe cell : safe (is_currency U td cell).
Proof.
  unfold is_currency; rewrite currency_pattern.
  destruct (fullmatch U Pat.currency (stripped td cell)) as [m|] eqn:E;
    [|apply safe_Ok].
  apply currency_group in E.
  destruct (get_group "1" (caps m)) as [grp|]; [|contradiction].
  apply safe_bind; [apply is_number_safe|].
  intros [|] _; apply safe_Ok.
Qed.

Lemma is_nan_safe cell : safe (is_nan U td cell).
Proof.
  unfold is_nan; destruct (Str.eqb _ _); apply safe_Ok.
Qed.

Lemma offset_branch_safe sep part :
  Str.contains sep part = true -> safe (offset_branch U td sep part).
Proof.
  intros H; apply split_contains in H. unfold offset_branch.
  apply safe_bind; [apply safe_index; lia|]. intros s0 _.
  apply safe_bind; [apply is_time_safe|]. intros istime1 _.
  apply safe_bind; [apply safe_index; lia|]. intros s1 _.
  apply safe_bind; [apply is_time_safe|]. intros istime2 _.
  destruct (negb istime1); [apply safe_Ok|].
  destruct istime2; [apply safe_Ok|].
  apply safe_bind; [apply safe_index; lia|]. intros s1' _.
  apply safe_bind; [known_key|]. intros [|] _; [apply safe_Ok|].
  apply safe_bind; [apply safe_index; lia|]. intros s1'' _.
  apply safe_bind; [known_key|]. intros [|] _; apply safe_Ok.
Qed.

Lemma is_datetime_safe cell : safe (is_datetime U td cell).
Proof.
  unfold is_datetime.
  destruct (Str.contains (ord " ") cell) eqn:Hsp.
  { apply split_contains in Hsp.
    destruct (Nat.ltb 2 _); [apply safe_Ok|].
    apply safe_and.
    - apply safe_bind; [apply safe_index; lia|]. intros; apply is_date_safe.
    - intros _. apply safe_bind; [apply safe_index; lia|].
      intros; apply is_time_safe. }
  destruct (Str.contains (ord "T") cell) eqn:HT; [|apply safe_Ok].
  apply split_contains in HT.
  destruct (Nat.ltb 2 _); [apply safe_Ok|].
  apply safe_bind; [apply safe_index; lia|]. intros p0 _.
  apply safe_bind; [apply is_date_safe|]. intros isdate _.
  destruct (negb isdate); [apply safe_Ok|].
  apply safe_bind; [apply safe_index; lia|]. intros p1 _.
  apply safe_bind; [apply is_time_safe|]. intros [|] _; [apply safe_Ok|].
  apply safe_bind; [apply safe_index; lia|]. intros p1' _.
  apply safe_bind.
  - destruct (Str.contains (ord "+") p1') eqn:Hp;
      [apply offset_branch_safe; exact Hp|].
    destruct (Str.contains (ord "-") p1') eqn:Hm;
      [apply offset_branch_safe; exact Hm | apply safe_Ok].
  - intros [b|] _; apply safe_Ok.
Qed.

Lemma type_tests_safe cell t :
  In t (type_tests U td) -> safe (snd t cell).
Proof.
  unfold type_tests; simpl.
  intros [<-|[<-|[<-|[<-|[<-|[<-|[<-|[<-|[<-|[<-|[]]]]]]]]]]]; simpl.
  - apply is_empty_safe.
  - apply is_url_or_email_safe.
  - apply is_number_safe.
  - apply is_time_safe.
  - apply is_percentage_safe.
  - apply is_currency_safe.
  - apply is_unicode_alphanum_safe.
  - apply is_nan_safe.
  - apply is_date_safe.
  - apply is_datetime_safe.
Qed.

End Totality.

(** ** The decision list *)

Section DecisionList.

Variable tests : list (string * (Str.t -> res bool)).
Variable cell : Str.t.

Lemma detect_loop_safe :
  (forall t, In t tests -> safe (snd t cell)) ->
  safe (detect_loop tests cell).
Proof.
  induction tests as [|[n f] ts IH]; intros Hs; simpl; [apply safe_Ok|].
  apply safe_bind; [apply (Hs (n, f)); left; reflexivity|].
  intros [|] _; [apply safe_Ok|].
  apply IH; intros t Ht; apply Hs; right; exact Ht.
Qed.

Lemma detect_loop_none :
  detect_loop tests cell = Ok None <-> all_false cell tests.
Proof.
  unfold all_false; induction tests as [|[n f] ts IH]; simpl.
  - split; [constructor | reflexivity].
  - split.
    + destruct (f cell) as [[|]|e] eqn:E; simpl; try discriminate.
      intros H; constructor; [exact E | apply IH; exact H].
    + intros H; inversion H as [|? ? Hf Hts]; subst; simpl in Hf.
      rewrite Hf; simpl; apply IH; exact Hts.
Qed.

Lemma detect_loop_some name :
  detect_loop tests cell = Ok (Some name) <-> first_true cell tests name.
Proof.
  unfold first_true, all_false; induction tests as [|[n f] ts IH]; simpl.
  - split; [discriminate|].
    intros [pre [func [post [H _]]]]; destruct pre; discriminate.
  - split.
    + destruct (f cell) as [[|]|e] eqn:E; simpl; try discriminate.
      * intros H; injection H as ->.
        exists [], f, ts; repeat split; [exact E | constructor].
      * intros H; apply IH in H.
        destruct H as [pre [func [post [-> [Hf Hpre]]]]].
        exists ((n, f) :: pre), func, post; repeat split;
          [exact Hf | constructor; [exact E | exact Hpre]].
    + intros [pre [func [post [Heq [Hf Hpre]]]]].
      destruct pre as [|p pre]; simpl in Heq.
      * injection Heq as Hn Hfn Hts; subst. rewrite Hf; reflexivity.
      * injection Heq as Hp0 Hts; subst.
        inversion Hpre as [|? ? Hp Hpre']; subst; simpl in Hp.
        rewrite Hp; simpl; apply IH.
        exists pre, func, post; repeat split; assumption.
Qed.

End DecisionList.

(* ================================================================== *)
(** * The claims *)

(** C1.  For every cell, [detect_type] tries the predicates in the fixed
    order empty, url-or-email, number, time, percentage, currency,
    alphanumeric, not-a-number, date, date-time: it returns a label
    exactly when the predicate of that label is true for the cell and the
    predicates before it in this order are all false, and it returns
    [None] (no known type) exactly when all ten are false; one of the two
    always happens. *)
Theorem detect_type_priority (U : unicode_db) (strip : bool) (cell : Str.t) :
  let td := detector strip in
  let tests := [
    ("empty", is_empty td);
    ("url_or_email", is_url_or_email U td);
    ("number", is_number U td);
    ("time", is_time U td);
    ("percentage", is_percentage U td);
    ("currency", is_currency U td);
    ("unicode_alphanum", is_unicode_alphanum U td);
    ("nan", is_nan U td);
    ("date", is_date U td);
    ("datetime", is_datetime U td)
  ]%string in
  (forall name,
     detect_type U td cell = Ok (Some name) <-> first_true cell tests name) /\
  (detect_type U td cell = Ok None <-> all_false cell tests) /\
  (exists label, detect_type U td cell = Ok label).
Proof.
  intros td tests. change tests with (type_tests U td).
  split; [|split].
  - intros name; apply detect_loop_some.
  - apply detect_loop_none.
  - apply detect_loop_safe. intros t; apply type_tests_safe.
Qed.

(** C2.  [detect_type] finds no known type exactly when [is_known_type]
    is false, and a label it returns is the label of a predicate that is
    true for the cell. *)
Theorem known_type_iff_label (U : unicode_db) (strip : bool) (cell : Str.t) :
  let td := detector strip in
  (detect_type U td cell = Ok None <-> is_known_type U td cell = Ok false) /\
  (is_known_type U td cell = Ok true <->
   exists name, detect_type U td cell = Ok (Some name)) /\
  (forall name,
     detect_type U td cell = Ok (Some name) ->
     exists func,
       In (name, func) [
         ("empty", is_empty td);
         ("url_or_email", is_url_or_email U td);
         ("number", is_number U td);
         ("time", is_time U td);
         ("percentage", is_percentage U td);
         ("currency", is_currency U td);
         ("unicode_alphanum", is_unicode_alphanum U td);
         ("nan", is_nan U td);
         ("date", is_date U td);
         ("datetime", is_datetime U td)
       ]%string /\
       func cell = Ok true).
Proof.
  intros td. split; [|split].
  - unfold is_known_type.
    destruct (detect_type U td cell) as [[l|]|e]; simpl;
      split; intros H; try discriminate; reflexivity.
  - unfold is_known_type.
    destruct (detect_type U td cell) as [[l|]|e]; simpl; split;
      try (intros [name H]); try intros H; try discriminate; eauto.
  - intros name H. apply detect_loop_some in H.
    destruct H as [pre [func [post [Heq [Hf _]]]]].
    exists func; split; [|exact Hf].
    change (In (name, func) (type_tests U td)).
    rewrite Heq; apply in_or_app; right; left; reflexivity.
Qed.

(** C5.  The construction of the detector, every predicate and
    [detect_type] return a value on every string: none raises.  The parts
    indexed after a split exist whenever the separator occurs in the
    string, and a cell that no predicate accepts gets the answer
    [None], not an error. *)
Theorem predicates_total (U : unicode_db) (strip : bool) (cell : Str.t) :
  let td := detector strip in
  __init__ PATTERNS strip = Ok td /\
  (exists b, is_empty td cell = Ok b) /\
  (exists b, is_url_or_email U td cell = Ok b) /\
  (exists b, is_number U td cell = Ok b) /\
  (exists b, is_time U td cell = Ok b) /\
  (exists b, is_percentage U td cell = Ok b) /\
  (exists b, is_currency U td cell = Ok b) /\
  (exists b, is_unicode_alphanum U td cell = Ok b) /\
  (exists b, is_nan U td cell = Ok b) /\
  (exists b, is_date U td cell = Ok b) /\
  (exists b, is_datetime U td cell = Ok b) /\
  (exists label, detect_type U td cell = Ok label) /\
  (exists b, is_known_type U td cell = Ok b) /\
  (forall sep part, Str.contains sep part = true ->
     exists p0 p1, index (Str.split sep part) 0 = Ok p0 /\
                   index (Str.split sep part) 1 = Ok p1) /\
  (all_false cell (type_tests U td) -> detect_type U td cell = Ok None).
Proof.
  intros td.
  assert (Hd : safe (detect_type U td cell)).
  { apply detect_loop_safe; intros t; apply type_tests_safe. }
  split; [apply init_detector|].
  split; [apply is_empty_safe|].
  split; [apply is_url_or_email_safe|].
  split; [apply is_number_safe|].
  split; [apply is_time_safe|].
  split; [apply is_percentage_safe|].
  split; [apply is_currency_safe|].
  split; [apply is_unicode_alphanum_safe|].
  split; [apply is_nan_safe|].
  split; [apply is_date_safe|].
  split; [apply is_datetime_safe|].
  split; [exact Hd|].
  split.
  { unfold is_known_type; destruct Hd as [l ->]; simpl; eexists; reflexivity. }
  split.
  - intros sep part H; apply split_contains in H.
    destruct (@safe_index _ (Str.split sep part) 0) as [p0 H0]; [lia|].
    destruct (@safe_index _ (Str.split sep part) 1) as [p1 H1]; [lia|].
    exists p0, p1; split; assumption.
  - apply detect_loop_none.
Qed.


Section Agreement.

Variable U : unicode_db.
Hypothesis U_ascii : ascii_ok U.

Lemma citem_mem_agree i c :
  printable c = true -> citem_mem U i c = citem_mem ascii_db i c.
Proof.
  intros Hc; destruct (U_ascii c Hc) as (H1 & H2 & H3 & H4 & H5 & H6).
  destruct i; simpl; auto.
Qed.

Lemma run_agree r : forall st k k',
  str_ok (rest st) ->
  (forall st', str_ok (rest st') -> k st' = k' st') ->
  run U r st k = run ascii_db r st k'.
Proof.
  unfold str_ok.
  induction r as [| |items|r1 IH1 r2 IH2|r1 IH1 r2 IH2|r1 IH1
                 |name r1 IH1|name yes IHy no IHn|r1 IH1| |];
    intros st k k' Hst Hk; simpl.
  - apply Hk; exact Hst.
  - destruct (rest st) as [|c s'] eqn:E; [reflexivity|].
    simpl in Hst; apply andb_prop in Hst; destruct Hst as [Hc Hs].
    destruct (N.eqb c 10); [reflexivity | apply Hk; exact Hs].
  - destruct (rest st) as [|c s'] eqn:E; [reflexivity|].
    simpl in Hst; apply andb_prop in Hst; destruct Hst as [Hc Hs].
    assert (Hi : existsb (fun i => citem_mem U i c) items =
                 existsb (fun i => citem_mem ascii_db i c) items).
    { clear -Hc U_ascii; induction items as [|i items IHi]; simpl;
        [reflexivity|].
      rewrite IHi, citem_mem_agree by exact Hc; reflexivity. }
    rewrite Hi; clear Hi.
    destruct (existsb _ items); [apply Hk; exact Hs | reflexivity].
  - apply IH1; [exact Hst|]. intros st1 H1; apply IH2; assumption.
  - rewrite (IH1 st k k' Hst Hk), (IH2 st k k' Hst Hk); reflexivity.
  - generalize (List.length (rest st)); intros n; revert st Hst.
    induction n as [|n IHn]; intros st Hst; [apply Hk; exact Hst|].
    f_equal; [|apply Hk; exact Hst].
    apply IH1; [exact Hst|]. intros st1 H1.
    destruct (Nat.ltb (pos st) (pos st1)); [apply IHn; exact H1 | reflexivity].
  - apply IH1; [exact Hst|]. intros st1 H1; apply Hk; exact H1.
  - destruct (get_group name (caps st)); [apply IHy | apply IHn]; assumption.
  - rewrite (IH1 st (fun st1 => Some st1) (fun st1 => Some st1) Hst);
      [|reflexivity].
    destruct (run ascii_db r1 st _); [apply Hk; exact Hst | reflexivity].
  - destruct (Nat.eqb (pos st) 0); [apply Hk; exact Hst | reflexivity].
  - pose proof (Hk st Hst) as Hkst.
    destruct (rest st) as [|c [|c' s']]; [exact Hkst | | reflexivity].
    destruct (N.eqb c 10); [exact Hkst | reflexivity].
Qed.

Lemma fullmatch_agree r s :
  str_ok s -> fullmatch U r s = fullmatch ascii_db r s.
Proof.
  intros Hs; unfold fullmatch; apply run_agree; [exact Hs | reflexivity].
Qed.

End Agreement.

Lemma str_ok_lstrip c s : str_ok s -> str_ok (Str.lstrip c s).
Proof.
  unfold str_ok; induction s as [|x s IH]; simpl; [auto|].
  intros H; destruct (N.eqb x c); [|exact H].
  apply andb_prop in H; apply IH, H.
Qed.

Lemma str_ok_rev s : str_ok s -> str_ok (rev s).
Proof.
  unfold str_ok; rewrite !forallb_forall; intros H x Hx.
  apply H, in_rev; exact Hx.
Qed.

Lemma str_ok_rstrip c s : str_ok s -> str_ok (Str.rstrip c s).
Proof.
  intros H; unfold Str.rstrip. apply str_ok_rev, str_ok_lstrip, str_ok_rev, H.
Qed.

Lemma str_ok_strip c s : str_ok s -> str_ok (Str.strip c s).
Proof.
  intros H; unfold Str.strip. apply str_ok_rstrip, str_ok_lstrip, H.
Qed.

Lemma str_ok_split_aux c s : forall cur,
  str_ok s -> str_ok cur ->
  Forall str_ok (Str.split_aux c cur s).
Proof.
  induction s as [|x s IH]; intros cur Hs Hcur; simpl.
  - constructor; [apply str_ok_rev; exact Hcur | constructor].
  - unfold str_ok in Hs; simpl in Hs; apply andb_prop in Hs; destruct Hs as [Hx Hs].
    destruct (N.eqb x c).
    + constructor; [apply str_ok_rev; exact Hcur|].
      apply IH; [exact Hs | reflexivity].
    + apply IH; [exact Hs|]. unfold str_ok; simpl; rewrite Hx; exact Hcur.
Qed.

Lemma str_ok_index c s i p :
  str_ok s -> index (Str.split c s) i = Ok p -> str_ok p.
Proof.
  intros Hs; unfold index.
  destruct (nth_error (Str.split c s) i) as [q|] eqn:E; [|discriminate].
  intros H; injection H as <-.
  apply nth_error_In in E.
  pose proof (str_ok_split_aux c (cur:=[]) Hs eq_refl) as HF.
  rewrite Forall_forall in HF; apply HF; exact E.
Qed.

Section DetectorAgreement.

Variable U : unicode_db.
Hypothesis U_ascii : ascii_ok U.
Variable td : TypeDetector.

Lemma stripped_ok cell : str_ok cell -> str_ok (stripped td cell).
Proof.
  intros H; unfold stripped; destruct (strip_whitespace td);
    [apply str_ok_strip|]; exact H.
Qed.

Lemma run_regex_agree cell name :
  str_ok cell -> _run_regex U td cell name = _run_regex ascii_db td cell name.
Proof.
  intros H; unfold _run_regex.
  destruct (dict_get (patterns td) name); [|reflexivity].
  rewrite (fullmatch_agree U_ascii); [reflexivity | apply stripped_ok, H].
Qed.

Lemma is_number_agree cell :
  str_ok cell -> is_number U td cell = is_number ascii_db td cell.
Proof.
  intros H; unfold is_number; rewrite !run_regex_agree by exact H; reflexivity.
Qed.

Lemma is_url_or_email_agree cell :
  str_ok cell -> is_url_or_email U td cell = is_url_or_email ascii_db td cell.
Proof.
  intros H; unfold is_url_or_email; rewrite !run_regex_agree by exact H;
    reflexivity.
Qed.

Lemma is_time_agree cell :
  str_ok cell -> is_time U td cell = is_time ascii_db td cell.
Proof.
  intros H; unfold is_time; rewrite !run_regex_agree by exact H; reflexivity.
Qed.

Lemma is_date_loop_agree cell keys :
  str_ok cell ->
  is_date_loop U td cell keys = is_date_loop ascii_db td cell keys.
Proof.
  intros H; induction keys as [|k keys IH]; simpl; [reflexivity|].
  rewrite IH, run_regex_agree by exact H; reflexivity.
Qed.

Lemma is_date_agree cell :
  str_ok cell -> is_date U td cell = is_date ascii_db td cell.
Proof.
  intros H; unfold is_date.
  rewrite is_number_agree, is_date_loop_agree by exact H; reflexivity.
Qed.

Lemma offset_branch_agree sep part :
  str_ok part ->
  offset_branch U td sep part = offset_branch ascii_db td sep part.
Proof.
  intros H; unfold offset_branch.
  apply bind_cong; [reflexivity|]. intros s0 E0.
  apply bind_cong; [apply is_time_agree, (str_ok_index _ _ H E0)|].
  intros istime1 _.
  apply bind_cong; [reflexivity|]. intros s1 E1.
  apply bind_cong; [apply is_time_agree, (str_ok_index _ _ H E1)|].
  intros istime2 _.
  destruct (negb istime1); [reflexivity|].
  destruct istime2; [reflexivity|].
  apply bind_cong; [reflexivity|]. intros s1' E1'.
  apply bind_cong; [apply run_regex_agree, (str_ok_index _ _ H E1')|].
  intros [|] _; [reflexivity|].
  apply bind_cong; [reflexivity|]. intros s1'' E1''.
  apply bind_cong; [apply run_regex_agree, (str_ok_index _ _ H E1'')|].
  reflexivity.
Qed.

Lemma is_datetime_agree cell :
  str_ok cell -> is_datetime U td cell = is_datetime ascii_db td cell.
Proof.
  intros H; unfold is_datetime.
  destruct (Str.contains (ord " ") cell).
  { destruct (Nat.ltb 2 _); [reflexivity|]. unfold and_.
    apply bind_cong.
    - apply bind_cong; [reflexivity|]. intros p0 E0.
      apply is_date_agree, (str_ok_index _ _ H E0).
    - intros [|] _; [|reflexivity].
      apply bind_cong; [reflexivity|]. intros p1 E1.
      apply is_time_agree, (str_ok_index _ _ H E1). }
  destruct (Str.contains (ord "T") cell); [|reflexivity].
  destruct (Nat.ltb 2 _); [reflexivity|].
  apply bind_cong; [reflexivity|]. intros p0 E0.
  apply bind_cong; [apply is_date_agree, (str_ok_index _ _ H E0)|].
  intros isdate _. destruct (negb isdate); [reflexivity|].
  apply bind_cong; [reflexivity|]. intros p1 E1.
  apply bind_cong; [apply is_time_agree, (str_ok_index _ _ H E1)|].
  intros [|] _; [reflexivity|].
  apply bind_cong; [reflexivity|]. intros p1' E1'.
  apply bind_cong; [|reflexivity].
  rewrite !(offset_branch_agree _ (str_ok_index _ _ H E1')); reflexivity.
Qed.

End DetectorAgreement.

(** ** Evaluation on ASCII cells *)

Lemma ascii_db_ok : ascii_ok ascii_db.
Proof. intros c _; repeat split. Defined.

Lemma detect_number U td cell :
  is_empty td cell = Ok false ->
  is_url_or_email U td cell = Ok false ->
  is_number U td cell = Ok true ->
  detect_type U td cell = Ok (Some "number"%string).
Proof.
  intros H1 H2 H3; unfold detect_type, type_tests.
  cbn [detect_loop]. rewrite H1; cbn [bind].
  rewrite H2; cbn [bind]. rewrite H3; reflexivity.
Qed.

(** A predicate at a cell of printable ASCII, by evaluation. *)
Ltac eval_ascii H :=
  first [ rewrite (is_number_agree H) by reflexivity
        | rewrite (is_url_or_email_agree H) by reflexivity
        | rewrite (is_time_agree H) by reflexivity
        | rewrite (is_date_agree H) by reflexivity
        | rewrite (is_datetime_agree H) by reflexivity
        | rewrite (run_regex_agree H) by reflexivity
        | idtac ];
  match goal with
  | |- context [detector ?s] => destruct s
  end; vm_compute; reflexivity.

Ltac eval_number H :=
  apply detect_number;
  [ match goal with |- context [detector ?s] => destruct s end;
    vm_compute; reflexivity
  | eval_ascii H | eval_ascii H ].

(** ** Numbers *)

Section LeadingZero.

Variable U : unicode_db.
Hypothesis U_ascii : ascii_ok U.

Lemma digit_0 : u_digit U 48%N = true.
Proof. destruct (U_ascii 48%N eq_refl) as [E _]; exact E. Qed.

(** A digit is none of the printable characters outside [0-9]. *)
Lemma digit_not d c :
  u_digit U d = true -> printable c = true -> ascii_digit c = false ->
  N.eqb d c = false.
Proof.
  intros Hd Hc Hn. destruct (N.eqb_spec d c) as [->|]; [|reflexivity].
  destruct (U_ascii c Hc) as [E _]; simpl in E; congruence.
Qed.

Variable d : N.
Hypothesis d_digit : u_digit U d = true.

Ltac stuck_after_zero :=
  pose proof digit_0 as H48;
  pose proof (digit_not d 46%N d_digit eq_refl eq_refl) as E46;
  pose proof (digit_not d 44%N d_digit eq_refl eq_refl) as E44;
  pose proof (digit_not d 101%N d_digit eq_refl eq_refl) as E101;
  pose proof (digit_not d 69%N d_digit eq_refl eq_refl) as E69;
  unfold fullmatch, Pat.number_1; cbn -[Nat.ltb List.length];
  rewrite ?H48, ?E46, ?E44, ?E101, ?E69; reflexivity.

Lemma number_1_zero_digit r :
  fullmatch U Pat.number_1 (48 :: d :: r)%N = None.
Proof. stuck_after_zero. Qed.

Lemma number_1_plus_zero_digit r :
  fullmatch U Pat.number_1 (43 :: 48 :: d :: r)%N = None.
Proof. stuck_after_zero. Qed.

Lemma number_1_minus_zero_digit r :
  fullmatch U Pat.number_1 (45 :: 48 :: d :: r)%N = None.
Proof. stuck_after_zero. Qed.

Lemma number_1_leading_zero sgn r :
  In sgn [py ""; py "+"; py "-"] ->
  fullmatch U Pat.number_1 (sgn ++ ord "0" :: d :: r) = None.
Proof.
  intros [<-|[<-|[<-|[]]]].
  - apply number_1_zero_digit.
  - apply number_1_plus_zero_digit.
  - apply number_1_minus_zero_digit.
Qed.

(** The grouped forms begin, after the sign, with a digit of [1-9]. *)
Lemma number_23_leading_zero sgn r :
  In sgn [py ""; py "+"; py "-"] ->
  fullmatch U Pat.number_2 (sgn ++ ord "0" :: d :: r) = None /\
  fullmatch U Pat.number_3 (sgn ++ ord "0" :: d :: r) = None.
Proof.
  intros [<-|[<-|[<-|[]]]]; split; reflexivity.
Qed.

Lemma stripped_leading_zero strip sgn r :
  In sgn [py ""; py "+"; py "-"] ->
  exists r',
    stripped (detector strip) (sgn ++ ord "0" :: d :: r) =
    sgn ++ ord "0" :: d :: r'.
Proof.
  intros Hs. unfold stripped.
  replace (strip_whitespace (detector strip)) with strip
    by (destruct strip; vm_compute; reflexivity).
  destruct strip; [|exists r; reflexivity].
  pose proof (digit_not d 32%N d_digit eq_refl eq_refl) as E32.
  apply N.eqb_neq in E32.
  exists (Str.rstrip (ord " ") r).
  destruct Hs as [<-|[<-|[<-|[]]]]; cbn [py Str.of_string app];
    repeat (first [rewrite strip_cons_ne by discriminate
                  | rewrite rstrip_cons by first [discriminate | exact E32]]);
    reflexivity.
Qed.

Lemma is_number_leading_zero strip sgn r :
  In sgn [py ""; py "+"; py "-"] ->
  is_number U (detector strip) (sgn ++ ord "0" :: d :: r) = Ok false.
Proof.
  intros Hs. unfold is_number, _run_regex.
  destruct (stripped_leading_zero strip r Hs) as [r' ->].
  replace (Str.eqb (sgn ++ ord "0" :: d :: r) []) with false
    by (destruct Hs as [<-|[<-|[<-|[]]]]; reflexivity).
  replace (dict_get (patterns (detector strip)) "number_1")
    with (Some Pat.number_1) by (destruct strip; vm_compute; reflexivity).
  replace (dict_get (patterns (detector strip)) "number_2")
    with (Some Pat.number_2) by (destruct strip; vm_compute; reflexivity).
  replace (dict_get (patterns (detector strip)) "number_3")
    with (Some Pat.number_3) by (destruct strip; vm_compute; reflexivity).
  rewrite (number_1_leading_zero r' Hs).
  destruct (number_23_leading_zero r' Hs) as [-> ->].
  reflexivity.
Qed.

End LeadingZero.

(** C9.  The empty cell is not a number; "0", "-12", "3.14", "3,14",
    "1e10", "1,234.56" and "1.234,56" are; and a cell that begins, after
    an optional sign, with "0" followed by a digit matches none of the
    number patterns, the plain/scientific one in particular: "01" is not
    a number. *)
Theorem number_examples (U : unicode_db) (U_ascii : ascii_ok U) (strip : bool) :
  let td := detector strip in
  is_number U td (py "") = Ok false /\
  is_number U td (py "0") = Ok true /\
  is_number U td (py "-12") = Ok true /\
  is_number U td (py "3.14") = Ok true /\
  is_number U td (py "3,14") = Ok true /\
  is_number U td (py "1e10") = Ok true /\
  is_number U td (py "1,234.56") = Ok true /\
  is_number U td (py "1.234,56") = Ok true /\
  is_number U td (py "01") = Ok false /\
  (forall sgn d rest,
     In sgn [py ""; py "+"; py "-"] -> u_digit U d = true ->
     matches U Pat.number_1 (sgn ++ ord "0" :: d :: rest) = false /\
     is_number U td (sgn ++ ord "0" :: d :: rest) = Ok false).
Proof.
  intros td; subst td.
  repeat (split; [eval_ascii U_ascii|]).
  intros sgn d rest Hs Hd; split.
  - unfold matches.
    rewrite (@number_1_leading_zero U U_ascii d Hd sgn rest Hs); reflexivity.
  - apply is_number_leading_zero; assumption.
Qed.

Lemma number_examples_witness :
  ascii_ok ascii_db /\
  is_number ascii_db (detector true) (py "3.14") = Ok true /\
  is_number ascii_db (detector true) (py "01") = Ok false /\
  is_number ascii_db (detector true) (py "-007") = Ok false.
Proof.
  pose proof (number_examples ascii_db_ok true) as H; cbv zeta in H.
  destruct H as (_ & _ & _ & H3 & _ & _ & _ & _ & H01 & Hz).
  split; [exact ascii_db_ok|]. split; [exact H3|]. split; [exact H01|].
  exact (proj2 (Hz (py "-") 48%N [55%N]
                   (or_intror (or_intror (or_introl eq_refl))) eq_refl)).
Defined.

(** C10.  The one-character cells "+", "-" and "." are numbers, and
    [detect_type] labels each of them "number". *)
Theorem lone_sign_or_dot (U : unicode_db) (U_ascii : ascii_ok U) (strip : bool) :
  let td := detector strip in
  is_number U td (py "+") = Ok true /\
  is_number U td (py "-") = Ok true /\
  is_number U td (py ".") = Ok true /\
  detect_type U td (py "+") = Ok (Some "number"%string) /\
  detect_type U td (py "-") = Ok (Some "number"%string) /\
  detect_type U td (py ".") = Ok (Some "number"%string).
Proof.
  intros td; subst td.
  split; [eval_ascii U_ascii|].
  split; [eval_ascii U_ascii|].
  split; [eval_ascii U_ascii|].
  split; [eval_number U_ascii|].
  split; eval_number U_ascii.
Qed.

Lemma lone_sign_or_dot_witness :
  ascii_ok ascii_db /\
  is_number ascii_db (detector true) (py "+") = Ok true /\
  detect_type ascii_db (detector true) (py ".") = Ok (Some "number"%string).
Proof.
  pose proof (lone_sign_or_dot ascii_db_ok true) as H; cbv zeta in H.
  destruct H as (H1 & _ & _ & _ & _ & H6).
  split; [exact ascii_db_ok|]. split; [exact H1 | exact H6].
Defined.

(** ** Dates *)

Lemma dict_get_In {V} (m : dict V) key v :
  dict_get m key = Some v -> In (key, v) m.
Proof.
  induction m as [|[k w] m IH]; simpl; [discriminate|].
  destruct (String.eqb_spec k key) as [->|].
  - intros H; injection H as ->; left; reflexivity.
  - intros H; right; apply IH; exact H.
Qed.

Lemma In_dict_get {V} (m : dict V) key v :
  distinct (map fst m) = true -> In (key, v) m -> dict_get m key = Some v.
Proof.
  induction m as [|[k w] m IH]; simpl; [tauto|].
  intros Hd; apply andb_prop in Hd; destruct Hd as [Hk Hd].
  intros [H|H].
  - injection H as -> ->. rewrite String.eqb_refl; reflexivity.
  - destruct (String.eqb_spec k key) as [->|]; [|apply IH; assumption].
    exfalso. apply negb_true_iff in Hk.
    assert (existsb (String.eqb key) (map fst m) = true); [|congruence].
    apply existsb_exists; exists key; split; [|apply String.eqb_refl].
    apply (in_map fst) in H; exact H.
Qed.

Lemma detector_keys_distinct strip :
  distinct (map fst (patterns (detector strip))) = true.
Proof. destruct strip; vm_compute; reflexivity. Qed.

(** What [_init_date_patterns] leaves in the dictionary, in key order:
    for each year, month and day width the three orders with a separator
    and the Chinese and Korean forms, then for each year width the three
    compact orders and, once more, the last Chinese form of the first
    loop (four-digit year, bare month and day). *)
Lemma date_patterns_generated strip :
  date_patterns (detector strip) =
  flat_map (fun year =>
    flat_map (fun month =>
      flat_map (fun day =>
        [DatePat.pat_1 year month day DatePat.sep;
         DatePat.pat_2 year month day DatePat.sep;
         DatePat.pat_3 year month day DatePat.sep;
         DatePat.pat_cn year month day;
         DatePat.pat_ko year month day])
        [DatePat.day_leading; DatePat.day_sparse])
      [DatePat.month_leading; DatePat.month_sparse])
    [DatePat.year2; DatePat.year4]
  ++
  flat_map (fun year =>
    [DatePat.pat_1 year DatePat.month_leading DatePat.day_leading Eps;
     DatePat.pat_2 year DatePat.month_leading DatePat.day_leading Eps;
     DatePat.pat_3 year DatePat.month_leading DatePat.day_leading Eps;
     DatePat.pat_cn DatePat.year4 DatePat.month_sparse DatePat.day_sparse])
    [DatePat.year2; DatePat.year4].
Proof. destruct strip; vm_compute; reflexivity. Qed.

Section Dates.

Variable U : unicode_db.
Variable td : TypeDetector.
Variable cell : Str.t.

Lemma run_regex_true name :
  _run_regex U td cell name = Ok true <->
  exists pat, dict_get (patterns td) name = Some pat /\
              matches U pat (stripped td cell) = true.
Proof.
  unfold _run_regex, matches.
  destruct (dict_get (patterns td) name) as [pat|].
  - destruct (fullmatch U pat (stripped td cell)) eqn:E; split.
    + intros _; exists pat; rewrite E; split; reflexivity.
    + reflexivity.
    + discriminate.
    + intros [p [Ep H]]; injection Ep as <-; rewrite E in H; discriminate.
  - split; [discriminate | intros [p [E _]]; discriminate].
Qed.

Lemma is_date_loop_true keys :
  (forall k, In k keys -> has_key (patterns td) k = true) ->
  (is_date_loop U td cell keys = Ok true <->
   exists k, In k keys /\ String.prefix "date_" k = true /\
             _run_regex U td cell k = Ok true).
Proof.
  induction keys as [|k keys IH]; intros Hk; cbn [is_date_loop].
  - split; [discriminate | intros [k [[] _]]].
  - assert (IH' := IH (fun k' H => Hk k' (or_intror H))); clear IH.
    destruct (String.prefix "date_" k) eqn:Ep.
    + assert (Hs : exists b, _run_regex U td cell k = Ok b).
      { unfold _run_regex. specialize (Hk k (or_introl eq_refl)).
        unfold has_key in Hk.
        destruct (dict_get (patterns td) k); [|discriminate].
        destruct (fullmatch U r (stripped td cell)); eexists; reflexivity. }
      destruct Hs as [[|] Hb]; rewrite Hb; cbn [bind].
      * split; [|reflexivity]. intros _; exists k; auto with datatypes.
      * rewrite IH'; split.
        -- intros [k' [Hin H]]; exists k'; split; [right; exact Hin | exact H].
        -- intros [k' [[<-|Hin] [Hp Hr]]]; [congruence|].
           exists k'; auto.
    + rewrite IH'; split.
      * intros [k' [Hin H]]; exists k'; split; [right; exact Hin | exact H].
      * intros [k' [[<-|Hin] [Hp Hr]]]; [congruence|].
        exists k'; auto.
Qed.

Hypothesis keys_distinct : distinct (map fst (patterns td)) = true.

(** Unless the cell is a number, it is a date when it matches a pattern
    of the Date Format Space. *)
Lemma is_date_spec :
  is_number U td cell = Ok false ->
  (is_date U td cell = Ok true <->
   exists pat, In pat (date_patterns td) /\
               matches U pat (stripped td cell) = true).
Proof.
  intros Hn; unfold is_date; rewrite Hn; cbn [bind].
  rewrite is_date_loop_true by (intros k; apply has_key_In).
  unfold date_patterns; split.
  - intros [k [Hin [Hp Hr]]]. apply run_regex_true in Hr.
    destruct Hr as [pat [Hget Hm]]; exists pat; split; [|exact Hm].
    apply dict_get_In in Hget.
    apply (in_map snd (filter _ _) (k, pat)), filter_In; auto.
  - intros [pat [Hin Hm]]. apply in_map_iff in Hin.
    destruct Hin as [[k p] [Heq Hin]]; simpl in Heq; subst p.
    apply filter_In in Hin; destruct Hin as [Hin Hp]; simpl in Hp.
    exists k; split; [apply (in_map fst _ _ Hin)|]. split; [exact Hp|].
    apply run_regex_true; exists pat; split; [|exact Hm].
    apply In_dict_get; assumption.
Qed.

Lemma is_date_number :
  is_number U td cell = Ok true -> is_date U td cell = Ok false.
Proof. intros Hn; unfold is_date; rewrite Hn; reflexivity. Qed.

End Dates.

(** C3.  A cell that is a number is not a date; any other cell is a date
    exactly when, after the strip of the detector, it fully matches a
    pattern of the Date Format Space; "19990101" matches the compact
    pattern of the four-digit year, yet it is a number, not a date, and
    [detect_type] labels it "number". *)
Theorem date_excludes_number (U : unicode_db) (U_ascii : ascii_ok U)
  (strip : bool) :
  let td := detector strip in
  (forall cell, is_number U td cell = Ok true -> is_date U td cell = Ok false) /\
  (forall cell,
     is_number U td cell = Ok false ->
     (is_date U td cell = Ok true <->
      exists pat, In pat (date_patterns td) /\
                  matches U pat (stripped td cell) = true)) /\
  is_number U td (py "19990101") = Ok true /\
  In (DatePat.pat_1 DatePat.year4 DatePat.month_leading DatePat.day_leading Eps)
     (date_patterns td) /\
  matches U
    (DatePat.pat_1 DatePat.year4 DatePat.month_leading DatePat.day_leading Eps)
    (py "19990101") = true /\
  is_date U td (py "19990101") = Ok false /\
  detect_type U td (py "19990101") = Ok (Some "number"%string).
Proof.
  intros td; subst td.
  split; [intros cell; apply is_date_number|].
  split; [intros cell; apply is_date_spec, detector_keys_distinct|].
  split; [eval_ascii U_ascii|].
  split.
  { rewrite date_patterns_generated; apply in_or_app; right.
    simpl; auto 10. }
  split.
  { unfold matches; rewrite (fullmatch_agree U_ascii) by reflexivity.
    vm_compute; reflexivity. }
  split; [eval_ascii U_ascii | eval_number U_ascii].
Qed.

Lemma date_excludes_number_witness :
  ascii_ok ascii_db /\
  is_number ascii_db (detector true) (py "990101") = Ok true /\
  is_date ascii_db (detector true) (py "990101") = Ok false /\
  is_number ascii_db (detector true) (py "1999-01-01") = Ok false /\
  is_date ascii_db (detector true) (py "1999-01-01") = Ok true.
Proof.
  pose proof (date_excludes_number ascii_db_ok true) as H; cbv zeta in H.
  destruct H as (H1 & H2 & _).
  split; [exact ascii_db_ok|].
  split; [vm_compute; reflexivity|].
  split; [apply H1; vm_compute; reflexivity|].
  split; [vm_compute; reflexivity|].
  apply H2; [vm_compute; reflexivity|].
  exists (DatePat.pat_1 DatePat.year4 DatePat.month_leading
            DatePat.day_leading DatePat.sep).
  split; [|vm_compute; reflexivity].
  rewrite date_patterns_generated; apply in_or_app; left.
  simpl; auto 30.
Defined.

(** ** Date-times *)

Lemma is_datetime_space U td cell :
  Str.contains (ord " ") cell = true ->
  (is_datetime U td cell = Ok true <->
   exists date time,
     Str.split (ord " ") cell = [date; time] /\
     is_date U td date = Ok true /\ is_time U td time = Ok true).
Proof.
  intros H; unfold is_datetime; rewrite H.
  apply split_contains in H.
  destruct (Str.split (ord " ") cell) as [|p0 [|p1 [|p2 parts]]];
    cbn [List.length] in H; try lia.
  - replace (Nat.ltb 2 (List.length [p0; p1])) with false by reflexivity.
    unfold and_, index; cbn [nth_error bind].
    split.
    + destruct (is_date U td p0) as [[|]|e] eqn:Ed; cbn [bind];
        try discriminate.
      intros Ht; exists p0, p1; auto.
    + intros [date [time [Heq [Hd Ht]]]].
      injection Heq as -> ->. rewrite Hd; exact Ht.
  - replace (Nat.ltb 2 (List.length (p0 :: p1 :: p2 :: parts))) with true
      by reflexivity.
    split; [discriminate | intros [date [time [Heq _]]]; discriminate].
Qed.

(** C7.  A cell with a space is a date-time exactly when the space splits
    it in two parts, a date and a time; and "2023-01-01 12:30:00",
    "2023-01-01T12:30:00+02:00" and "2023-01-01T12:30:00+0200" are
    date-times. *)
Theorem datetime_forms (U : unicode_db) (U_ascii : ascii_ok U) (strip : bool) :
  let td := detector strip in
  (forall cell,
     Str.contains (ord " ") cell = true ->
     (is_datetime U td cell = Ok true <->
      exists date time,
        Str.split (ord " ") cell = [date; time] /\
        is_date U td date = Ok true /\ is_time U td time = Ok true)) /\
  is_datetime U td (py "2023-01-01 12:30:00") = Ok true /\
  is_datetime U td (py "2023-01-01T12:30:00+02:00") = Ok true /\
  is_datetime U td (py "2023-01-01T12:30:00+0200") = Ok true.
Proof.
  intros td; subst td.
  split; [intros cell; apply is_datetime_space|].
  split; [eval_ascii U_ascii|].
  split; eval_ascii U_ascii.
Qed.

Lemma datetime_forms_witness :
  ascii_ok ascii_db /\
  Str.contains (ord " ") (py "1999/12/31 23:59") = true /\
  is_datetime ascii_db (detector true) (py "1999/12/31 23:59") = Ok true /\
  is_datetime ascii_db (detector true) (py "2023-01-01T12:30:00+0200") = Ok true.
Proof.
  pose proof (datetime_forms ascii_db_ok true) as H; cbv zeta in H.
  destruct H as (H1 & _ & _ & H4).
  split; [exact ascii_db_ok|].
  split; [reflexivity|].
  split; [|exact H4].
  apply H1; [reflexivity|].
  exists (py "1999/12/31"), (py "23:59").
  split; [reflexivity|]. split; vm_compute; reflexivity.
Defined.

(** ** The offset without separator *)

Ltac hhmm_atoms a b c d :=
  cbn;
  generalize (N.eqb a 48), (N.eqb a 49), (N.eqb a 50),
    (in_range 48 57 b), (in_range 48 51 b), (in_range 48 53 c),
    (in_range 48 57 d);
  intros [|] [|] [|] [|] [|] [|] [|]; reflexivity.

Lemma time_HHMM_tests U s :
  matches U Pat.time_HHMM s =
  match s with
  | [a; b; c; d] => hhmm_tests a b c d
  | _ => false
  end.
Proof.
  unfold matches, fullmatch, Pat.time_HHMM, hhmm_tests.
  destruct s as [|a [|b [|c [|d [|e t]]]]]; try reflexivity.
  - hhmm_atoms a 0%N 0%N 0%N.
  - hhmm_atoms a b 0%N 0%N.
  - hhmm_atoms a b c 0%N.
  - hhmm_atoms a b c d.
  - hhmm_atoms a b c d.
Qed.

Lemma hhmm_tests_form a b c d : hhmm_tests a b c d = hhmm_form [a; b; c; d].
Proof.
  apply eq_true_iff_eq. unfold hhmm_tests, hhmm_form, ascii_digit, in_range.
  rewrite ?andb_true_iff, ?orb_true_iff, ?andb_true_iff, ?N.eqb_eq, ?N.leb_le.
  lia.
Qed.

Lemma time_HHMM_form U s : matches U Pat.time_HHMM s = hhmm_form s.
Proof.
  rewrite time_HHMM_tests.
  destruct s as [|a [|b [|c [|d [|e t]]]]]; try reflexivity.
  apply hhmm_tests_form.
Qed.

(** C8.  The patterns stored as "time_HHMM" and "time_HH" accept the same
    strings: exactly the strings of four digits, an hour of 00 to 23
    followed by a minute of 00 to 59; and so the two checks of
    [is_datetime] with them give the same answer. *)
Theorem offset_patterns_equal (U : unicode_db) (strip : bool) (s : Str.t) :
  let td := detector strip in
  exists p_hhmm p_hh,
    dict_get (patterns td) "time_HHMM" = Some p_hhmm /\
    dict_get (patterns td) "time_HH" = Some p_hh /\
    (matches U p_hhmm s = true <-> matches U p_hh s = true) /\
    matches U p_hhmm s = hhmm_form s /\
    matches U p_hh s = hhmm_form s /\
    _run_regex U td s "time_HHMM" = Ok (hhmm_form (stripped td s)) /\
    _run_regex U td s "time_HH" = _run_regex U td s "time_HHMM".
Proof.
  intros td; subst td.
  exists Pat.time_HHMM, Pat.time_HH.
  assert (H1 : dict_get (patterns (detector strip)) "time_HHMM"
               = Some Pat.time_HHMM) by (destruct strip; vm_compute; reflexivity).
  assert (H2 : dict_get (patterns (detector strip)) "time_HH"
               = Some Pat.time_HH) by (destruct strip; vm_compute; reflexivity).
  split; [exact H1|]. split; [exact H2|].
  change Pat.time_HH with Pat.time_HHMM.
  split; [reflexivity|].
  split; [apply time_HHMM_form|]. split; [apply time_HHMM_form|].
  unfold _run_regex; rewrite H1, H2. change Pat.time_HH with Pat.time_HHMM.
  split; [|reflexivity].
  pose proof (time_HHMM_form U (stripped (detector strip) s)) as Hm.
  unfold matches in Hm.
  destruct (fullmatch U Pat.time_HHMM (stripped (detector strip) s));
    rewrite <- Hm; reflexivity.
Qed.

(** ** The strip of the detector *)

Section Strip.

Variable U : unicode_db.

Local Abbreviation td := (detector true).
Local Abbreviation sp := (Str.strip (ord " ")).

Lemma stripped_true cell : stripped td cell = sp cell.
Proof.
  unfold stripped.
  replace (strip_whitespace td) with true by (vm_compute; reflexivity).
  reflexivity.
Qed.

Lemma stripped_strip cell : stripped td (sp cell) = stripped td cell.
Proof. rewrite !stripped_true; apply strip_idem. Qed.

Lemma run_regex_strip cell name :
  _run_regex U td (sp cell) name = _run_regex U td cell name.
Proof. unfold _run_regex; rewrite stripped_strip; reflexivity. Qed.

Lemma is_number_strip cell :
  is_number U td (sp cell) = is_number U td cell.
Proof.
  unfold is_number; rewrite !run_regex_strip.
  destruct (Str.eqb cell []) eqn:Ec.
  - apply Str_eqb_eq in Ec; subst cell; reflexivity.
  - destruct (Str.eqb (sp cell) []) eqn:Es; [|reflexivity].
    apply Str_eqb_eq in Es. unfold _run_regex.
    rewrite stripped_true, Es.
    replace (dict_get (patterns td) "number_1") with (Some Pat.number_1)
      by (vm_compute; reflexivity).
    replace (dict_get (patterns td) "number_2") with (Some Pat.number_2)
      by (vm_compute; reflexivity).
    replace (dict_get (patterns td) "number_3") with (Some Pat.number_3)
      by (vm_compute; reflexivity).
    reflexivity.
Qed.

Lemma is_date_loop_strip cell keys :
  is_date_loop U td (sp cell) keys = is_date_loop U td cell keys.
Proof.
  induction keys as [|k keys IH]; cbn [is_date_loop]; [reflexivity|].
  rewrite IH, run_regex_strip; reflexivity.
Qed.

(** Every predicate but [is_datetime] gives a cell and the stripped
    cell the same answer. *)
Lemma strip_invariance cell :
  is_empty td (sp cell) = is_empty td cell /\
  is_url_or_email U td (sp cell) = is_url_or_email U td cell /\
  is_number U td (sp cell) = is_number U td cell /\
  is_time U td (sp cell) = is_time U td cell /\
  is_percentage U td (sp cell) = is_percentage U td cell /\
  is_currency U td (sp cell) = is_currency U td cell /\
  is_unicode_alphanum U td (sp cell) = is_unicode_alphanum U td cell /\
  is_nan U td (sp cell) = is_nan U td cell /\
  is_date U td (sp cell) = is_date U td cell.
Proof.
  split; [unfold is_empty; rewrite stripped_strip; reflexivity|].
  split; [unfold is_url_or_email; rewrite !run_regex_strip; reflexivity|].
  split; [apply is_number_strip|].
  split; [unfold is_time; rewrite !run_regex_strip; reflexivity|].
  split; [unfold is_percentage; rewrite stripped_strip; reflexivity|].
  split; [unfold is_currency; rewrite stripped_strip; reflexivity|].
  split; [unfold is_unicode_alphanum; apply run_regex_strip|].
  split; [unfold is_nan; rewrite stripped_strip; reflexivity|].
  unfold is_date; rewrite is_number_strip, is_date_loop_strip; reflexivity.
Qed.

End Strip.

(** C6.  With the strip flag set, [is_datetime] does not strip the cell
    before it looks for the space that separates the date from the time:
    the cell " 2023-01-01T12:30:00" is not a date-time although the
    stripped cell is one. *)
Theorem datetime_without_strip (U : unicode_db) (U_ascii : ascii_ok U) :
  let td := detector true in
  let cell := py " 2023-01-01T12:30:00" in
  strip_whitespace td = true /\
  Str.strip (ord " ") cell = py "2023-01-01T12:30:00" /\
  is_datetime U td cell = Ok false /\
  is_datetime U td (Str.strip (ord " ") cell) = Ok true.
Proof.
  intros td cell; subst td cell.
  split; [vm_compute; reflexivity|]. split; [vm_compute; reflexivity|].
  split; rewrite (is_datetime_agree U_ascii) by reflexivity;
    vm_compute; reflexivity.
Qed.

Lemma datetime_without_strip_witness :
  ascii_ok ascii_db /\
  is_datetime ascii_db (detector true) (py " 2023-01-01T12:30:00") = Ok false.
Proof.
  pose proof (datetime_without_strip ascii_db_ok) as H; cbv zeta in H.
  split; [exact ascii_db_ok | exact (proj1 (proj2 (proj2 H)))].
Defined.

(** ** The score *)

Lemma py_max_ge a b : (a <= py_max a b)%Q.
Proof.
  unfold py_max; destruct (Qle_bool b a) eqn:E; [apply Qle_refl|].
  apply Qlt_le_weak, Qnot_le_lt; intros H.
  apply Qle_bool_iff in H; congruence.
Qed.

Lemma py_max_le a b c : (a <= c)%Q -> (b <= c)%Q -> (py_max a b <= c)%Q.
Proof. intros Ha Hb; unfold py_max; destruct (Qle_bool b a); assumption. Qed.

Lemma py_max_one a b : (a <= 1)%Q -> (b == 1)%Q -> (py_max a b == 1)%Q.
Proof.
  intros Ha Hb; unfold py_max; destruct (Qle_bool b a) eqn:E; [|exact Hb].
  apply Qle_bool_iff in E. apply Qle_antisym; [exact Ha|].
  rewrite <- Hb; exact E.
Qed.

Lemma exact_div_ok : fdiv_ok exact_div.
Proof.
  intros known total Ht Hk; unfold exact_div.
  destruct total as [|p|p]; try lia.
  destruct known as [|k|k]; try lia;
    unfold Qdiv, Qinv, Qmult, Qle, Qeq; simpl; repeat split; lia.
Defined.

Section Counting.

Variable U : unicode_db.
Variable td : TypeDetector.
Hypothesis td_total :
  forall cell, is_known_type U td cell = Ok (knownb U td cell).

Lemma count_cell_step total known cell :
  count_cell U td (Ok (total, known)) cell =
  Ok (total + 1, known + (if knownb U td cell then 1 else 0))%Z.
Proof.
  unfold count_cell; cbn [bind fst snd]. rewrite td_total; reflexivity.
Qed.

Lemma count_row cells : forall total known,
  fold_left (count_cell U td) cells (Ok (total, known)) =
  Ok (total + Z.of_nat (List.length cells),
      known + Z.of_nat (List.length (filter (knownb U td) cells)))%Z.
Proof.
  induction cells as [|c cells IH]; intros total known.
  - simpl; rewrite !Z.add_0_r; reflexivity.
  - cbn [fold_left]. rewrite count_cell_step, IH.
    cbn [filter List.length].
    destruct (knownb U td c); cbn [List.length];
      rewrite ?Nat2Z.inj_succ; f_equal; f_equal; lia.
Qed.

Lemma count_rows rows : forall total known,
  fold_left (fun acc row => fold_left (count_cell U td) row acc) rows
    (Ok (total, known)) =
  Ok (total + Z.of_nat (List.length (List.concat rows)),
      known +
      Z.of_nat (List.length (filter (knownb U td) (List.concat rows))))%Z.
Proof.
  induction rows as [|row rows IH]; intros total known.
  - simpl; rewrite !Z.add_0_r; reflexivity.
  - cbn [fold_left List.concat]. rewrite count_row, IH.
    rewrite filter_app, !length_app, !Nat2Z.inj_add.
    f_equal; f_equal; lia.
Qed.

End Counting.

Section Score.

Variable U : unicode_db.
Variable Dialect : Type.
Variable parse_data : Str.t -> Dialect -> list (list Str.t).
Variable fdiv : Z -> Z -> Q.

Local Abbreviation td := (detector true).

Lemma known_type_value cell : is_known_type U td cell = Ok (knownb U td cell).
Proof.
  unfold knownb, is_known_type.
  destruct (@detect_loop_safe (type_tests U td) cell) as [l Hl];
    [intros t; apply type_tests_safe|].
  unfold detect_type; rewrite Hl; destruct l; reflexivity.
Qed.

Lemma type_score_value data dialect eps :
  let cells := List.concat (parse_data data dialect) in
  let total := Z.of_nat (List.length cells) in
  let known := Z.of_nat (List.length (filter (knownb U td) cells)) in
  type_score U parse_data fdiv data dialect eps =
  Ok (if Z.eqb total 0 then eps else py_max eps (fdiv known total)).
Proof.
  intros cells total known; unfold type_score.
  rewrite init_detector; cbn [bind].
  unfold count_cells; rewrite (@count_rows U td known_type_value); cbn [bind fst snd].
  rewrite !Z.add_0_l. fold cells; fold total; fold known.
  destruct (Z.eqb total 0); reflexivity.
Qed.

Lemma empty_cell_known : knownb U td [] = true.
Proof. vm_compute; reflexivity. Qed.

Lemma all_empty_known cells :
  Forall (fun c => c = []) cells -> filter (knownb U td) cells = cells.
Proof.
  induction 1 as [|c cells Hc _ IH]; [reflexivity|].
  subst c; cbn [filter]. rewrite empty_cell_known, IH; reflexivity.
Qed.

End Score.

(** C4, amended.  The score is [eps] when the parser yields no cell, and
    [max(eps, known / total)] otherwise, where [total] counts the cells
    and [known] those of a known type; it is never below [eps], and when
    [eps] is at most 1 it is at most 1; when moreover there is a cell and
    every cell is the empty string, it is 1. *)
Theorem type_score_bounds (U : unicode_db) (Dialect : Type)
  (parse_data : Str.t -> Dialect -> list (list Str.t))
  (fdiv : Z -> Z -> Q) (fdiv_div : fdiv_ok fdiv)
  (data : Str.t) (dialect : Dialect) (eps : Q) :
  let td := detector true in
  let cells := List.concat (parse_data data dialect) in
  let total := Z.of_nat (List.length cells) in
  let known := Z.of_nat (List.length (filter (knownb U td) cells)) in
  let score := type_score U parse_data fdiv data dialect eps in
  (cells = [] -> score = Ok eps) /\
  (cells <> [] -> score = Ok (py_max eps (fdiv known total))) /\
  (exists r, score = Ok r /\ (eps <= r)%Q /\ ((eps <= 1)%Q -> (r <= 1)%Q)) /\
  (cells <> [] -> Forall (fun c => c = []) cells -> (eps <= 1)%Q ->
   exists r, score = Ok r /\ (r == 1)%Q).
Proof.
  intros td cells total known score; subst td.
  assert (Hs : score =
    Ok (if Z.eqb total 0 then eps else py_max eps (fdiv known total))).
  { apply type_score_value. }
  assert (Hz : cells = [] -> Z.eqb total 0 = true).
  { intros E; subst total; rewrite E; reflexivity. }
  assert (Hnz : cells <> [] -> Z.eqb total 0 = false /\ (0 < total)%Z).
  { intros E; subst total. destruct cells; [contradiction|].
    cbn [List.length]; rewrite Nat2Z.inj_succ; split; [apply Z.eqb_neq|]; lia. }
  assert (Hk : (0 <= known <= total)%Z).
  { subst known total; split; [lia|].
    apply Nat2Z.inj_le, filter_length_le. }
  split; [intros E; rewrite Hs, (Hz E); reflexivity|].
  split; [intros E; rewrite Hs; destruct (Hnz E) as [-> _]; reflexivity|].
  split.
  - rewrite Hs. destruct cells as [|c cs] eqn:Ec.
    + rewrite (Hz eq_refl). exists eps; repeat split; auto using Qle_refl.
    + destruct Hnz as [-> Ht]; [discriminate|].
      destruct (fdiv_div known total Ht Hk) as (_ & H1 & _).
      eexists; split; [reflexivity|]. split; [apply py_max_ge|].
      intros He; apply py_max_le; assumption.
  - intros Hne Hall He. rewrite Hs. destruct (Hnz Hne) as [-> Ht].
    eexists; split; [reflexivity|].
    apply py_max_one; [exact He|].
    assert (known = total) as ->.
    { subst known total. rewrite (all_empty_known U Hall); reflexivity. }
    destruct (fdiv_div total total Ht) as (_ & _ & H1); [lia | exact H1].
Qed.

Lemma type_score_bounds_witness :
  fdiv_ok exact_div /\
  type_score ascii_db (fun (_ : Str.t) (_ : unit) => [[py ""; py "abc%"]])
    exact_div (py "") tt DEFAULT_EPS_TYPE = Ok (exact_div 1 2) /\
  exists r,
    type_score ascii_db (fun (_ : Str.t) (_ : unit) => [[py ""]; [py ""]])
      exact_div (py "") tt DEFAULT_EPS_TYPE = Ok r /\ (r == 1)%Q.
Proof.
  split; [exact exact_div_ok|]. split; [vm_compute; reflexivity|].
  apply (type_score_bounds ascii_db
           (fun (_ : Str.t) (_ : unit) => [[py ""]; [py ""]])
           exact_div_ok (py "") tt DEFAULT_EPS_TYPE).
  - discriminate.
  - repeat constructor.
  - unfold DEFAULT_EPS_TYPE, Qle; simpl; lia.
Defined.

(** C4, as stated, fails: with [eps = 2] and a table of one empty cell
    the score is 2, which is neither in the interval from [eps] to 1 nor
    equal to 1. *)
Lemma type_score_above_one :
  (0 < 2)%Q /\
  fdiv_ok exact_div /\
  exists r,
    type_score ascii_db (fun (_ : Str.t) (_ : unit) => [[py ""]])
      exact_div (py "") tt 2%Q = Ok r /\
    ~ (r <= 1)%Q /\ ~ (r == 1)%Q.
Proof.
  split; [reflexivity|]. split; [exact exact_div_ok|].
  exists 2%Q. split; [vm_compute; reflexivity|].
  split; intros H; vm_compute in H; [apply H; reflexivity | discriminate].
Qed.

(* ================================================================== *)
(** * Further properties of the module *)

(** ** Cells of spaces *)

Lemma lstrip_nil c s :
  Str.lstrip c s = [] <-> forallb (fun x => N.eqb x c) s = true.
Proof.
  induction s as [|x s IH]; simpl; [tauto|].
  destruct (N.eqb x c); simpl; [exact IH|].
  split; discriminate.
Qed.

Lemma forallb_rev {A} (f : A -> bool) l : forallb f (rev l) = forallb f l.
Proof.
  apply eq_true_iff_eq; rewrite !forallb_forall; split; intros H x Hx;
    apply H; [apply in_rev in Hx | apply in_rev]; assumption.
Qed.

Lemma rstrip_nil c s :
  Str.rstrip c s = [] <-> forallb (fun x => N.eqb x c) s = true.
Proof.
  unfold Str.rstrip. rewrite <- (forallb_rev _ s), <- lstrip_nil.
  split; intros H; [|rewrite H; reflexivity].
  apply (f_equal (@rev N)) in H; rewrite rev_involutive in H; exact H.
Qed.

Lemma lstrip_head c s x m : Str.lstrip c s = x :: m -> x <> c.
Proof.
  induction s as [|y s IH]; simpl; [discriminate|].
  destruct (N.eqb_spec y c) as [->|Hy]; [exact IH|].
  intros E; injection E as <- _; exact Hy.
Qed.

Lemma strip_nil c s :
  Str.strip c s = [] <-> forallb (fun x => N.eqb x c) s = true.
Proof.
  unfold Str.strip; rewrite <- lstrip_nil.
  destruct (Str.lstrip c s) as [|x m] eqn:E; [split; reflexivity|].
  rewrite rstrip_cons by (eapply lstrip_head; exact E).
  split; discriminate.
Qed.

Lemma detect_empty U td cell :
  is_empty td cell = Ok true ->
  detect_type U td cell = Ok (Some "empty"%string).
Proof.
  intros H; unfold detect_type, type_tests; cbn [detect_loop].
  rewrite H; reflexivity.
Qed.

(** X1.  With the strip flag set a cell is empty exactly when it consists
    of spaces only (the empty cell included), and [detect_type] labels
    every such cell "empty"; with the flag unset only the empty string is
    empty. *)
Theorem empty_iff_spaces (U : unicode_db) (cell : Str.t) :
  is_empty (detector true) cell =
    Ok (forallb (fun x => N.eqb x (ord " ")) cell) /\
  is_empty (detector false) cell =
    Ok (match cell with [] => true | _ :: _ => false end) /\
  (forallb (fun x => N.eqb x (ord " ")) cell = true ->
   detect_type U (detector true) cell = Ok (Some "empty"%string) /\
   is_known_type U (detector true) cell = Ok true).
Proof.
  assert (H1 : is_empty (detector true) cell =
               Ok (forallb (fun x => N.eqb x (ord " ")) cell)).
  { unfold is_empty; rewrite stripped_true. f_equal.
    apply eq_true_iff_eq; rewrite Str_eqb_eq; apply strip_nil. }
  split; [exact H1|]. split.
  - unfold is_empty, stripped.
    replace (strip_whitespace (detector false)) with false
      by (vm_compute; reflexivity).
    destruct cell; reflexivity.
  - intros H. rewrite H in H1.
    assert (Hd := @detect_empty U _ _ H1).
    split; [exact Hd|]. unfold is_known_type; rewrite Hd; reflexivity.
Qed.

Lemma empty_iff_spaces_witness :
  forallb (fun x => N.eqb x (ord " ")) (py "   ") = true /\
  detect_type ascii_db (detector true) (py "   ") = Ok (Some "empty"%string).
Proof.
  split; [reflexivity|].
  exact (proj1 (proj2 (proj2 (empty_iff_spaces ascii_db (py "   "))) eq_refl)).
Defined.

(** ** The generator and the score *)

Lemma yield_known_value U cells :
  yield_known U (detector true) cells =
  Ok (map (knownb U (detector true)) cells).
Proof.
  induction cells as [|c cells IH]; cbn [yield_known map]; [reflexivity|].
  rewrite known_type_value, IH; reflexivity.
Qed.

Lemma count_true_filter {A} (f : A -> bool) l :
  count_occ bool_dec (map f l) true = List.length (filter f l).
Proof.
  induction l as [|x l IH]; cbn [map filter count_occ]; [reflexivity|].
  destruct (f x); cbn [List.length];
    destruct (bool_dec _ true); try congruence; rewrite IH; reflexivity.
Qed.

(** X2.  [gen_known_type] does not raise: it yields one boolean per cell,
    in the order of the cells, each the answer of [is_known_type]; and
    the score of a table is computed from the values the generator yields
    for its cells taken row by row: [eps] when there is none, else the
    maximum of [eps] and the number of [True] among them divided by their
    number. *)
Theorem generator_and_score (U : unicode_db) (Dialect : Type)
  (parse_data : Str.t -> Dialect -> list (list Str.t)) (fdiv : Z -> Z -> Q)
  (data : Str.t) (dialect : Dialect) (eps : Q) :
  let cells := List.concat (parse_data data dialect) in
  exists bs,
    gen_known_type U cells = Ok bs /\
    List.length bs = List.length cells /\
    (forall i cell, nth_error cells i = Some cell ->
       exists b, nth_error bs i = Some b /\
                 is_known_type U (detector true) cell = Ok b) /\
    type_score U parse_data fdiv data dialect eps =
    Ok (if Nat.eqb (List.length bs) 0 then eps
        else py_max eps
               (fdiv (Z.of_nat (count_occ bool_dec bs true))
                     (Z.of_nat (List.length bs)))).
Proof.
  intros cells. exists (map (knownb U (detector true)) cells).
  split.
  { unfold gen_known_type; rewrite init_detector; cbn [bind].
    apply yield_known_value. }
  split; [apply length_map|]. split.
  - intros i cell Hi. exists (knownb U (detector true) cell).
    split; [apply map_nth_error; exact Hi | apply known_type_value].
  - rewrite type_score_value, count_true_filter, length_map.
    fold cells. destruct (List.length cells); reflexivity.
Qed.

Lemma filter_length_perm {A} (f : A -> bool) l l' :
  Permutation.Permutation l l' ->
  List.length (filter f l) = List.length (filter f l').
Proof.
  induction 1 as [|x l l' _ IH|x y l|l l' l'' _ IH1 _ IH2]; cbn [filter].
  - reflexivity.
  - destruct (f x); cbn [List.length]; rewrite IH; reflexivity.
  - destruct (f x), (f y); reflexivity.
  - rewrite IH1; exact IH2.
Qed.

(** X3.  The score depends on the cells only, not on their order nor on
    how they are grouped in rows: two parses whose cells are the same up
    to order have the same score. *)
Theorem score_ignores_order (U : unicode_db) (Dialect : Type)
  (parse_data : Str.t -> Dialect -> list (list Str.t)) (fdiv : Z -> Z -> Q)
  (data data' : Str.t) (dialect dialect' : Dialect) (eps : Q) :
  Permutation.Permutation (List.concat (parse_data data dialect))
                          (List.concat (parse_data data' dialect')) ->
  type_score U parse_data fdiv data dialect eps =
  type_score U parse_data fdiv data' dialect' eps.
Proof.
  intros H. rewrite !type_score_value.
  rewrite (Permutation.Permutation_length H), (@filter_length_perm _ _ _ _ H).
  reflexivity.
Qed.

Lemma score_ignores_order_witness :
  type_score ascii_db
    (fun (_ : Str.t) (by_rows : bool) =>
       if by_rows then [[py "1"; py "x y"]; [py "?"]]
       else [[py "?"; py "1"]; []; [py "x y"]])
    exact_div (py "") true DEFAULT_EPS_TYPE =
  type_score ascii_db
    (fun (_ : Str.t) (by_rows : bool) =>
       if by_rows then [[py "1"; py "x y"]; [py "?"]]
       else [[py "?"; py "1"]; []; [py "x y"]])
    exact_div (py "") false DEFAULT_EPS_TYPE.
Proof.
  apply (@score_ignores_order ascii_db bool
           (fun (_ : Str.t) (by_rows : bool) =>
              if by_rows then [[py "1"; py "x y"]; [py "?"]]
              else [[py "?"; py "1"]; []; [py "x y"]])
           exact_div (py "") (py "") true false DEFAULT_EPS_TYPE).
  cbn [List.concat app].
  apply Permutation.Permutation_sym.
  apply (Permutation.Permutation_cons_app [py "1"; py "x y"] [] (py "?")).
  apply Permutation.Permutation_refl.
Defined.

(** ** The construction of a detector *)


Lemma dict_get_set_other {V} (m : dict V) k v k' :
  k <> k' -> dict_get (dict_set m k v) k' = dict_get m k'.
Proof.
  intros Hk; induction m as [|[k0 w] m IH]; simpl.
  - destruct (String.eqb_spec k k'); [contradiction | reflexivity].
  - destruct (String.eqb_spec k0 k) as [->|H0]; simpl.
    + destruct (String.eqb_spec k k'); [contradiction | reflexivity].
    + destruct (String.eqb k0 k'); [reflexivity | exact IH].
Qed.


Lemma dict_update_other {V} (entries : list (string * V)) : forall m key,
  ~ In key (map fst entries) ->
  dict_get (dict_update m entries) key = dict_get m key.
Proof.
  unfold dict_update.
  induction entries as [|[k v] es IH]; intros m key Hk; simpl; [reflexivity|].
  rewrite IH by (intros H; apply Hk; right; exact H).
  apply dict_get_set_other; intros ->; apply Hk; left; reflexivity.
Qed.









Lemma date_entries_keys :
  distinct (map fst date_entries) = true /\
  forallb (String.prefix "date_") (map fst date_entries) = true.
Proof. split; vm_compute; reflexivity. Qed.


Lemma construction_patterns strip :
  patterns (detector strip) = dict_update PATTERNS date_entries /\
  strip_whitespace (detector strip) = strip.
Proof. destruct strip; split; vm_compute; reflexivity. Qed.



(** ** Labels of stripped cells *)

Lemma detect_loop_but_last tests tests' cell cell' l f f' name :
  Forall2 (fun t t' : string * (Str.t -> res bool) =>
             fst t = fst t' /\ snd t cell = snd t' cell') tests tests' ->
  detect_loop (tests ++ [(l, f)]) cell = Ok (Some name) -> name <> l ->
  detect_loop (tests' ++ [(l, f')]) cell' = Ok (Some name).
Proof.
  induction 1 as [|[n g] [n' g'] ts ts' [Hn Hg] _ IH]; cbn [app detect_loop].
  - destruct (f cell) as [[|]|]; cbn [bind]; try discriminate.
    intros E Hl; injection E as <-; contradiction Hl; reflexivity.
  - cbn [fst snd] in Hn, Hg; subst n'. rewrite <- Hg.
    destruct (g cell) as [[|]|]; cbn [bind]; auto.
Qed.

(** X5.  With the strip flag set, every predicate but [is_datetime] gives
    a cell and the stripped cell the same answer, and a label other than
    "datetime" that [detect_type] gives a cell it gives the stripped cell
    too. *)
Theorem strip_keeps_label (U : unicode_db) (cell : Str.t) :
  let td := detector true in
  let stripped_cell := Str.strip (ord " ") cell in
  is_empty td stripped_cell = is_empty td cell /\
  is_url_or_email U td stripped_cell = is_url_or_email U td cell /\
  is_number U td stripped_cell = is_number U td cell /\
  is_time U td stripped_cell = is_time U td cell /\
  is_percentage U td stripped_cell = is_percentage U td cell /\
  is_currency U td stripped_cell = is_currency U td cell /\
  is_unicode_alphanum U td stripped_cell = is_unicode_alphanum U td cell /\
  is_nan U td stripped_cell = is_nan U td cell /\
  is_date U td stripped_cell = is_date U td cell /\
  (forall name,
     detect_type U td cell = Ok (Some name) -> name <> "datetime"%string ->
     detect_type U td stripped_cell = Ok (Some name)).
Proof.
  intros td stripped_cell; subst td stripped_cell.
  destruct (strip_invariance U cell)
    as (H1 & H2 & H3 & H4 & H5 & H6 & H7 & H8 & H9).
  repeat (split; [assumption|]).
  set (nine := [("empty"%string, is_empty (detector true));
            ("url_or_email"%string, is_url_or_email U (detector true));
            ("number"%string, is_number U (detector true));
            ("time"%string, is_time U (detector true));
            ("percentage"%string, is_percentage U (detector true));
            ("currency"%string, is_currency U (detector true));
            ("unicode_alphanum"%string, is_unicode_alphanum U (detector true));
            ("nan"%string, is_nan U (detector true));
            ("date"%string, is_date U (detector true))]).
  assert (HF : Forall2 (fun t t' : string * (Str.t -> res bool) =>
                 fst t = fst t' /\
                 snd t cell = snd t' (Str.strip (ord " ") cell)) nine nine).
  { subst nine.
    repeat (constructor; [split; [reflexivity | symmetry; assumption]|]).
    constructor. }
  intros name Hd Hn.
  exact (@detect_loop_but_last nine nine cell (Str.strip (ord " ") cell)
           "datetime"%string (is_datetime U (detector true))
           (is_datetime U (detector true)) name HF Hd Hn).
Qed.

Lemma strip_keeps_label_witness :
  detect_type ascii_db (detector true) (Str.strip (ord " ") (py "  45.5% ")) =
  Ok (Some "percentage"%string).
Proof.
  apply (strip_keeps_label ascii_db (py "  45.5% ")).
  - vm_compute; reflexivity.
  - discriminate.
Defined.

(** ** Times *)

Ltac bool_cases :=
  cbn;
  repeat (match goal with
  | |- context [N.eqb ?x ?y] => generalize (N.eqb x y); intros [|]
  | |- context [in_range ?a ?b ?x] => generalize (in_range a b x); intros [|]
  end; cbn);
  reflexivity.

Ltac bool_arith :=
  apply eq_true_iff_eq;
  unfold time_form, two_digits, ascii_digit, in_range;
  repeat (rewrite andb_true_iff || rewrite orb_true_iff);
  rewrite ?N.eqb_eq, ?N.leb_le;
  lia.

Lemma time_hmm_tests U s :
  matches U Pat.time_hmm s =
  match s with
  | [a; c1; c; d] =>
      in_range 48 57 a && N.eqb c1 58 && in_range 48 53 c && in_range 48 57 d
  | [a; b; c1; c; d] =>
      (N.eqb a 49 && in_range 48 57 b || N.eqb a 50 && in_range 48 51 b)
      && N.eqb c1 58 && in_range 48 53 c && in_range 48 57 d
  | _ => false
  end.
Proof.
  unfold matches, fullmatch, Pat.time_hmm.
  destruct s as [|a [|b [|c1 [|c [|d [|e t]]]]]]; try reflexivity;
    bool_cases.
Qed.

Lemma time_hhmm_tests U s :
  matches U Pat.time_hhmm s =
  match s with
  | [a; b; c1; c; d] =>
      hhmm_tests a b c d && N.eqb c1 58
  | _ => false
  end.
Proof.
  unfold matches, fullmatch, Pat.time_hhmm, hhmm_tests.
  destruct s as [|a [|b [|c1 [|c [|d [|e t]]]]]]; try reflexivity;
    bool_cases.
Qed.

Lemma time_hhmmss_tests U s :
  matches U Pat.time_hhmmss s =
  match s with
  | [a; b; c1; c; d; c2; e; f] =>
      hhmm_tests a b c d && N.eqb c1 58 && N.eqb c2 58 &&
      in_range 48 53 e && in_range 48 57 f
  | _ => false
  end.
Proof.
  unfold matches, fullmatch, Pat.time_hhmmss, hhmm_tests.
  destruct s as [|a [|b [|c1 [|c [|d [|c2 [|e [|f [|g t]]]]]]]]];
    try reflexivity; bool_cases.
Qed.

Lemma time_patterns_form U s :
  matches U Pat.time_hmm s || (matches U Pat.time_hhmm s
                               || matches U Pat.time_hhmmss s) =
  time_form s.
Proof.
  rewrite time_hmm_tests, time_hhmm_tests, time_hhmmss_tests.
  unfold hhmm_tests.
  destruct s as [|a [|b [|c1 [|c [|d [|c2 [|e [|f [|g t]]]]]]]]];
    try reflexivity.
  - rewrite !orb_false_r. bool_arith.
  - rewrite !orb_false_r. bool_arith.
  - cbn [orb]. bool_arith.
Qed.

Lemma run_regex_value U td cell name pat :
  dict_get (patterns td) name = Some pat ->
  _run_regex U td cell name = Ok (matches U pat (stripped td cell)).
Proof.
  intros H; unfold _run_regex, matches; rewrite H.
  destruct (fullmatch U pat (stripped td cell)); reflexivity.
Qed.

Lemma detector_pattern strip name pat :
  dict_get PATTERNS name = Some pat ->
  dict_get (patterns (detector strip)) name = Some pat.
Proof.
  intros H.
  destruct (@construction_patterns strip) as [E1 E2]. rewrite E1.
  rewrite dict_update_other; [exact H|].
  intros Hin. destruct date_entries_keys as [_ Hp].
  rewrite forallb_forall in Hp. specialize (Hp name Hin).
  apply dict_get_In in H. unfold PATTERNS in H; simpl in H.
  repeat (destruct H as [H|H]; [injection H as <- _; discriminate Hp|]).
  contradiction.
Qed.

Lemma is_time_value U strip cell :
  is_time U (detector strip) cell =
  Ok (time_form (stripped (detector strip) cell)).
Proof.
  unfold is_time.
  rewrite (@run_regex_value U _ cell "time_hmm" Pat.time_hmm)
    by (apply detector_pattern; reflexivity).
  rewrite (@run_regex_value U _ cell "time_hhmm" Pat.time_hhmm)
    by (apply detector_pattern; reflexivity).
  rewrite (@run_regex_value U _ cell "time_hhmmss" Pat.time_hhmmss)
    by (apply detector_pattern; reflexivity).
  rewrite <- (@time_patterns_form U (stripped (detector strip) cell)).
  unfold or_; cbn [bind].
  destruct (matches U Pat.time_hmm _); [reflexivity|].
  destruct (matches U Pat.time_hhmm _); reflexivity.
Qed.

(** X6.  A cell is a time exactly when, after the strip of the detector,
    it has the form H:MM, HH:MM or HH:MM:SS with ASCII digits, the hour
    at most 23 (one digit allowed only in H:MM), minute and second at
    most 59. *)
Theorem time_iff_form (U : unicode_db) (strip : bool) (cell : Str.t) :
  let td := detector strip in
  is_time U td cell = Ok (time_form (stripped td cell)).
Proof. intros td; apply is_time_value. Qed.

(** ** The characters a pattern consumes *)

Lemma forallb_impl {A} (f g : A -> bool) l :
  (forall x, f x = true -> g x = true) ->
  forallb f l = true -> forallb g l = true.
Proof.
  intros H; rewrite !forallb_forall; intros Hf x Hx; apply H, Hf, Hx.
Qed.

Section Consumes.

Variable U : unicode_db.

(** A match consumes a stretch of the input, each character of it at a
    place of the pattern that accepts it, and hands the rest to the
    continuation. *)
Lemma run_consumes r : forall st k m,
  run U r st k = Some m ->
  exists st' w,
    k st' = Some m /\ rest st = w ++ rest st' /\
    forallb (consumable U r) w = true.
Proof.
  induction r as [| |items|r1 IH1 r2 IH2|r1 IH1 r2 IH2|r1 IH1
                 |name r1 IH1|name yes IHy no IHn|r1 IH1| |];
    intros st k m; cbn [run consumable].
  - intros H; exists st, []; auto.
  - destruct (rest st) as [|c s'] eqn:E; [discriminate|].
    destruct (N.eqb c 10) eqn:Ec; [discriminate|].
    intros H; exists (advance st s'), [c]; cbn; rewrite Ec; auto.
  - destruct (rest st) as [|c s'] eqn:E; [discriminate|].
    destruct (existsb _ items) eqn:Ec; [|discriminate].
    intros H; exists (advance st s'), [c]; cbn; rewrite Ec; auto.
  - intros H; apply IH1 in H; destruct H as (st1 & w1 & H & E1 & F1).
    apply IH2 in H; destruct H as (st2 & w2 & H & E2 & F2).
    exists st2, (w1 ++ w2); split; [exact H|]. split.
    + rewrite E1, E2, app_assoc; reflexivity.
    + rewrite forallb_app; apply andb_true_intro; split.
      * revert F1; apply forallb_impl; intros x ->; reflexivity.
      * revert F2; apply forallb_impl; intros x ->; apply orb_true_r.
  - unfold orelse; destruct (run U r1 st k) eqn:E.
    + intros H; rewrite H in E; apply IH1 in E.
      destruct E as (st1 & w1 & H1 & E1 & F1).
      exists st1, w1; repeat split; auto.
      revert F1; apply forallb_impl; intros x ->; reflexivity.
    + intros H; apply IH2 in H; destruct H as (st2 & w2 & H2 & E2 & F2).
      exists st2, w2; repeat split; auto.
      revert F2; apply forallb_impl; intros x ->; apply orb_true_r.
  - generalize (List.length (rest st)); intros n; revert st.
    induction n as [|n IHn]; intros st; [intros H; exists st, []; auto|].
    unfold orelse at 1.
    match goal with |- match ?X with _ => _ end = _ -> _ => destruct X eqn:E end.
    + intros H; rewrite H in E; apply IH1 in E.
      destruct E as (st1 & w1 & H1 & E1 & F1).
      destruct (Nat.ltb (pos st) (pos st1)); [|discriminate].
      apply IHn in H1; destruct H1 as (st2 & w2 & H2 & E2 & F2).
      exists st2, (w1 ++ w2); split; [exact H2|]. split.
      * rewrite E1, E2, app_assoc; reflexivity.
      * rewrite forallb_app; apply andb_true_intro; split;
          [exact F1 | exact F2].
    + intros H; exists st, []; auto.
  - intros H; apply IH1 in H; destruct H as (st1 & w1 & H & E1 & F1).
    exists (set_group name st st1), w1; auto.
  - destruct (get_group name (caps st)); intros H;
      [apply IHy in H | apply IHn in H];
      destruct H as (st1 & w1 & H & E1 & F1);
      exists st1, w1; repeat split; auto;
      revert F1; apply forallb_impl; intros x ->;
      [reflexivity | apply orb_true_r].
  - destruct (run U r1 st (fun st1 => Some st1)) as [st1|]; [|discriminate].
    intros H; eexists; exists []; split; [exact H | auto].
  - destruct (Nat.eqb (pos st) 0); [|discriminate].
    intros H; exists st, []; auto.
  - destruct (rest st) as [|c [|c' s']] eqn:E; try discriminate.
    + intros H; exists st, []; rewrite E; auto.
    + destruct (N.eqb c 10); [|discriminate].
      intros H; exists st, []; rewrite E; auto.
Qed.

(** The continuation fails after every stretch the pattern could
    consume: the match fails. *)
Lemma run_none r st k :
  (forall st' w, rest st = w ++ rest st' ->
                 forallb (consumable U r) w = true -> k st' = None) ->
  run U r st k = None.
Proof.
  intros H. destruct (run U r st k) as [m|] eqn:E; [|reflexivity].
  apply run_consumes in E; destruct E as (st' & w & Hk & Er & Fw).
  rewrite (H st' w Er Fw) in Hk; discriminate.
Qed.

Lemma fullmatch_consumable r s m :
  fullmatch U r s = Some m -> forallb (consumable U r) s = true.
Proof.
  unfold fullmatch; intros H; apply run_consumes in H.
  destruct H as (st' & w & Hk & Er & Fw); cbn [rest] in Er.
  destruct (rest st'); [|discriminate].
  rewrite app_nil_r in Er; subst w; exact Fw.
Qed.

Lemma matches_consumable r s :
  matches U r s = true -> forallb (consumable U r) s = true.
Proof.
  unfold matches; destruct (fullmatch U r s) eqn:E; [|discriminate].
  intros _; eapply fullmatch_consumable; exact E.
Qed.

Ltac chars_of_number :=
  unfold number_char; cbn; unfold ascii_digit, in_range;
  repeat (rewrite andb_true_iff || rewrite orb_true_iff);
  rewrite ?N.eqb_eq, ?N.leb_le;
  intuition (try discriminate; try lia).

Lemma number_1_chars c :
  consumable U Pat.number_1 c = true -> number_char U c = true.
Proof. chars_of_number. Qed.

Lemma number_2_chars c :
  consumable U Pat.number_2 c = true -> number_char U c = true.
Proof. chars_of_number. Qed.

Lemma number_3_chars c :
  consumable U Pat.number_3 c = true -> number_char U c = true.
Proof. chars_of_number. Qed.

End Consumes.

(** ** What a number is made of *)

Lemma number_patterns strip :
  dict_get (patterns (detector strip)) "number_1" = Some Pat.number_1 /\
  dict_get (patterns (detector strip)) "number_2" = Some Pat.number_2 /\
  dict_get (patterns (detector strip)) "number_3" = Some Pat.number_3.
Proof. repeat split; apply detector_pattern; reflexivity. Qed.

Lemma is_number_value U strip cell :
  is_number U (detector strip) cell =
  Ok (negb (Str.eqb cell []) &&
      (matches U Pat.number_1 (stripped (detector strip) cell)
       || matches U Pat.number_2 (stripped (detector strip) cell)
       || matches U Pat.number_3 (stripped (detector strip) cell))).
Proof.
  destruct (number_patterns strip) as (H1 & H2 & H3).
  unfold is_number.
  rewrite (@run_regex_value U _ cell _ _ H1), (@run_regex_value U _ cell _ _ H2),
    (@run_regex_value U _ cell _ _ H3).
  destruct (Str.eqb cell []); [reflexivity|]. cbn [bind negb andb].
  destruct (matches U Pat.number_1 _); [reflexivity|].
  destruct (matches U Pat.number_2 _); [reflexivity|].
  destruct (matches U Pat.number_3 _); reflexivity.
Qed.

Lemma is_number_chars U strip cell :
  is_number U (detector strip) cell = Ok true ->
  stripped (detector strip) cell <> [] /\
  forallb (number_char U) (stripped (detector strip) cell) = true.
Proof.
  rewrite is_number_value; intros H; injection H as H.
  apply andb_prop in H; destruct H as [_ H].
  assert (Hc : forallb (number_char U) (stripped (detector strip) cell) = true).
  { apply orb_prop in H; destruct H as [H|H];
      [apply orb_prop in H; destruct H as [H|H]|];
      apply matches_consumable in H; revert H; apply forallb_impl.
    - apply number_1_chars.
    - apply number_2_chars.
    - apply number_3_chars. }
  split; [|exact Hc].
  intros E; rewrite E in H; vm_compute in H; discriminate.
Qed.

Lemma not_number_char U c :
  ascii_ok U -> printable c = true -> ascii_digit c = false ->
  existsb (N.eqb c) (py "+-.,eE") = false ->
  number_char U c = false.
Proof.
  intros HU Hp Hd He; unfold number_char.
  destruct (HU c Hp) as [E _]; rewrite E; cbn [u_digit ascii_db].
  rewrite Hd, He; reflexivity.
Qed.

Lemma forallb_In_false {A} (f : A -> bool) l x :
  forallb f l = true -> In x l -> f x = false -> False.
Proof.
  rewrite forallb_forall; intros H Hin Hx; rewrite (H x Hin) in Hx; discriminate.
Qed.

Lemma endswith_In c s : Str.endswith c s = true -> In c s.
Proof.
  unfold Str.endswith; destruct (rev s) as [|x l] eqn:E; [discriminate|].
  intros H; apply N.eqb_eq in H; subst x.
  apply in_rev; rewrite E; left; reflexivity.
Qed.

Lemma time_form_colon s : time_form s = true -> In 58%N s.
Proof.
  destruct s as [|a [|b [|c1 [|c [|d [|c2 [|e [|f [|g t]]]]]]]]];
    try discriminate; cbn [time_form]; intros H;
    repeat (apply andb_prop in H; destruct H as [H ?]);
    repeat match goal with
    | E : N.eqb _ 58 = true |- _ => apply N.eqb_eq in E; subst
    end; simpl; tauto.
Qed.

(** X7.  A number is made of digits, signs, dots, commas and the letters
    e and E only: when [is_number] is true, the cell, after the strip of
    the detector, is not empty and holds no other character. *)
Theorem number_characters (U : unicode_db) (strip : bool) (cell : Str.t) :
  let td := detector strip in
  is_number U td cell = Ok true ->
  stripped td cell <> [] /\
  forall c, In c (stripped td cell) ->
    u_digit U c = true \/ In c (py "0123456789+-.,eE").
Proof.
  intros td H; subst td. apply is_number_chars in H; destruct H as [Hn Hc].
  split; [exact Hn|]. intros c Hin.
  rewrite forallb_forall in Hc; specialize (Hc c Hin).
  unfold number_char, ascii_digit, in_range in Hc; cbn in Hc.
  repeat (rewrite andb_true_iff in Hc || rewrite orb_true_iff in Hc).
  rewrite ?N.eqb_eq, ?N.leb_le in Hc.
  destruct Hc as [[Hc|Hc]|Hc]; [left; exact Hc | right | right].
  - assert (E : exists n, (n < 10)%nat /\ c = N.of_nat (48 + n)).
    { exists (N.to_nat c - 48)%nat; split; lia. }
    destruct E as (n & Hlt & ->).
    do 10 (destruct n as [|n]; [simpl; tauto|]). lia.
  - simpl; intuition (try discriminate; subst; auto 30).
Qed.

Lemma number_characters_witness :
  is_number ascii_db (detector false) (py "-1.5e3") = Ok true /\
  (u_digit ascii_db (ord "e") = true \/ In (ord "e") (py "0123456789+-.,eE")).
Proof.
  split; [vm_compute; reflexivity|].
  apply (proj2 (@number_characters ascii_db false (py "-1.5e3") eq_refl)).
  vm_compute; tauto.
Defined.

(** X8.  A cell that is a number is not empty, not a time, not a
    percentage and not a date: for these four labels the place of
    "number" in the order of [detect_type] does not matter. *)
Theorem number_excludes (U : unicode_db) (U_ascii : ascii_ok U)
  (strip : bool) (cell : Str.t) :
  let td := detector strip in
  is_number U td cell = Ok true ->
  is_empty td cell = Ok false /\
  is_time U td cell = Ok false /\
  is_percentage U td cell = Ok false /\
  is_date U td cell = Ok false.
Proof.
  intros td H; subst td.
  destruct (is_number_chars _ _ _ H) as [Hn Hc].
  split; [|split; [|split]].
  - unfold is_empty. f_equal. apply not_true_is_false; intros E.
    apply Str_eqb_eq in E; contradiction.
  - rewrite is_time_value. f_equal. apply not_true_is_false; intros E.
    apply time_form_colon in E.
    apply (forallb_In_false _ _ _ Hc E).
    apply not_number_char; auto.
  - unfold is_percentage, and_; cbn [bind].
    destruct (Str.endswith (ord "%") (stripped (detector strip) cell)) eqn:E;
      [|reflexivity].
    exfalso. apply endswith_In in E.
    apply (forallb_In_false _ _ _ Hc E).
    apply not_number_char; auto.
  - apply is_date_number; exact H.
Qed.

Lemma number_excludes_witness :
  ascii_ok ascii_db /\
  is_time ascii_db (detector true) (py " 1,234.5 ") = Ok false /\
  is_percentage ascii_db (detector true) (py " 1,234.5 ") = Ok false.
Proof.
  split; [exact ascii_db_ok|].
  destruct (@number_excludes ascii_db ascii_db_ok true (py " 1,234.5 "))
    as (_ & H2 & H3 & _); [vm_compute; reflexivity|].
  split; assumption.
Defined.

(** ** Integers *)

Lemma lstrip_fixed c s : ~ In c s -> Str.lstrip c s = s.
Proof.
  destruct s as [|x s]; [reflexivity|]. intros H; cbn [Str.lstrip].
  destruct (N.eqb_spec x c) as [->|_]; [|reflexivity].
  exfalso; apply H; left; reflexivity.
Qed.

Lemma strip_fixed c s : ~ In c s -> Str.strip c s = s.
Proof.
  intros H; unfold Str.strip, Str.rstrip.
  rewrite (@lstrip_fixed c s H), lstrip_fixed; [apply rev_involutive|].
  intros Hin; apply H, in_rev; exact Hin.
Qed.

Lemma digits_no_space s : forallb ascii_digit s = true -> ~ In (ord " ") s.
Proof.
  rewrite forallb_forall; intros H Hin. specialize (H _ Hin); discriminate.
Qed.

Lemma stripped_digits td s :
  forallb ascii_digit s = true -> stripped td s = s.
Proof.
  intros H; unfold stripped; destruct (strip_whitespace td); [|reflexivity].
  apply strip_fixed, digits_no_space, H.
Qed.

Section Integers.

Variable U : unicode_db.
Hypothesis U_ascii : ascii_ok U.

Lemma ascii_digit_range c : ascii_digit c = true <-> (48 <= c <= 57)%N.
Proof.
  unfold ascii_digit, in_range; rewrite andb_true_iff, !N.leb_le; tauto.
Qed.

Lemma ascii_digit_u c : ascii_digit c = true -> u_digit U c = true.
Proof.
  intros H. assert (Hp : printable c = true).
  { apply ascii_digit_range in H. unfold printable, in_range.
    apply andb_true_intro; split; apply N.leb_le; lia. }
  destruct (U_ascii c Hp) as [E _]; rewrite E; exact H.
Qed.

Lemma ascii_digit_word c : ascii_digit c = true -> u_word U c = true.
Proof.
  intros H. assert (Hp : printable c = true).
  { apply ascii_digit_range in H. unfold printable, in_range.
    apply andb_true_intro; split; apply N.leb_le; lia. }
  destruct (U_ascii c Hp) as (_ & E & _); rewrite E; cbn [u_word ascii_db].
  rewrite H, orb_true_r; reflexivity.
Qed.

(** A greedy run of digits reaches the end of a string of digits. *)
Lemma star_digits K ds : forall st,
  rest st = ds -> forallb ascii_digit ds = true ->
  (forall st', rest st' = [] -> caps st' = caps st ->
               exists m, K st' = Some m) ->
  exists m, run U (Star Pat.d) st K = Some m.
Proof.
  intros st Hr. cbn [run].
  replace (List.length (rest st)) with (List.length ds)
    by (rewrite Hr; reflexivity).
  revert st Hr. induction ds as [|x xs IH]; intros st Hr Hd HK.
  - apply HK; [exact Hr | reflexivity].
  - cbn [forallb] in Hd; apply andb_prop in Hd; destruct Hd as [Hx Hd].
    cbn [List.length]. unfold Pat.d at 1. cbn [run]. rewrite Hr.
    cbn [existsb citem_mem]. rewrite (@ascii_digit_u x Hx). cbn [orb].
    replace (Nat.ltb (pos st) (pos (advance st xs))) with true
      by (symmetry; apply PeanoNat.Nat.ltb_lt; cbn; lia).
    destruct (IH (advance st xs) eq_refl Hd) as [m Hm].
    { intros st' H1 H2; apply HK; [exact H1 | exact H2]. }
    exists m. rewrite Hm. reflexivity.
Qed.

Lemma integer_number_1 c ds :
  in_range 49 57 c = true -> forallb ascii_digit ds = true ->
  matches U Pat.number_1 (c :: ds) = true.
Proof.
  intros Hc Hd.
  assert (Hc' : (49 <= c <= 57)%N).
  { unfold in_range in Hc; apply andb_prop in Hc; destruct Hc as [H1 H2].
    apply N.leb_le in H1, H2; lia. }
  assert (Hu : u_digit U c = true)
    by (apply ascii_digit_u, ascii_digit_range; lia).
  assert (E43 : N.eqb c 43 = false) by (apply N.eqb_neq; lia).
  assert (E45 : N.eqb c 45 = false) by (apply N.eqb_neq; lia).
  assert (E48 : N.eqb c 48 = false) by (apply N.eqb_neq; lia).
  unfold matches, fullmatch, Pat.number_1, Seq.
  match goal with
  | |- context [Group "1" ?g] => remember (Group "1" g) as G eqn:EG
  end.
  remember (Star Pat.d) as SD eqn:ESD.
  cbn. rewrite Hu, E43, E45, E48, Hc, !orb_true_r. cbn.
  destruct (@star_digits (fun st1 => run U G st1
              (fun st => match rest st with [] => Some st | _ :: _ => None end))
              ds (advance {| pos := 0; rest := c :: ds; caps := [] |} ds)
              eq_refl Hd) as [m Hm].
  { intros [p r cs] Hr Hcs; cbn in Hr, Hcs; subst r cs G SD.
    cbn. eexists; reflexivity. }
  subst SD. rewrite Hm. reflexivity.
Qed.

(** A pattern that wants an "@" after a stretch of the input finds none
    in a string of digits. *)
Lemma at_alone_fails st K :
  forallb ascii_digit (rest st) = true -> run U (Lit (ord "@")) st K = None.
Proof.
  intros H; cbn [run Lit]. destruct (rest st) as [|x s]; [reflexivity|].
  cbn [forallb] in H; apply andb_prop in H; destruct H as [Hx _].
  apply ascii_digit_range in Hx.
  cbn [existsb citem_mem]. replace (N.eqb x (ord "@")) with false
    by (symmetry; apply N.eqb_neq; cbn; lia).
  reflexivity.
Qed.

Lemma at_first_fails R st K :
  forallb ascii_digit (rest st) = true ->
  run U (Cat (Lit (ord "@")) R) st K = None.
Proof. intros H; cbn [run]. apply at_alone_fails, H. Qed.

Lemma then_at_fails P A st K :
  (forall st' K', forallb ascii_digit (rest st') = true ->
                  run U A st' K' = None) ->
  forallb ascii_digit (rest st) = true ->
  run U (Cat P A) st K = None.
Proof.
  intros HA Hd. cbn [run]. apply run_none; intros st' w Hr _.
  apply HA. rewrite Hr, forallb_app in Hd.
  apply andb_prop in Hd; apply Hd.
Qed.

Lemma email_digits s :
  forallb ascii_digit s = true -> matches U Pat.email s = false.
Proof.
  intros H. unfold matches, fullmatch, Pat.email. cbn [Seq].
  match goal with
  | |- context [run U (Group ?n (Cat Bol ?R)) ?st ?k] =>
      change (run U (Group n (Cat Bol R)) st k)
        with (if Nat.eqb (pos st) 0
              then run U R st (fun st1 => k (set_group n st st1)) else None)
  end.
  cbn [pos Nat.eqb].
  rewrite then_at_fails; [reflexivity | | exact H].
  intros st' K' Hd; apply at_first_fails, Hd.
Qed.

Lemma userinfo_digits st K :
  forallb ascii_digit (rest st) = true -> run U Pat.userinfo st K = None.
Proof.
  intros H; unfold Pat.userinfo. apply then_at_fails; [|exact H].
  intros st' K' Hd; apply at_alone_fails, Hd.
Qed.

Lemma url_digits c ds :
  forallb ascii_digit (c :: ds) = true -> matches U Pat.url (c :: ds) = false.
Proof.
  intros H. assert (Hc : ascii_digit c = true).
  { cbn [forallb] in H; apply andb_prop in H; apply H. }
  apply ascii_digit_range in Hc.
  assert (E1 : in_range 65 90 c = false).
  { unfold in_range; apply andb_false_iff; left; apply N.leb_gt; lia. }
  assert (E2 : in_range 97 122 c = false).
  { unfold in_range; apply andb_false_iff; left; apply N.leb_gt; lia. }
  assert (E3 : N.eqb c 119 = false) by (apply N.eqb_neq; lia).
  unfold matches, fullmatch, Pat.url, Seq.
  remember Pat.userinfo as UI eqn:EUI. remember Pat.host as HOST eqn:EH.
  match goal with
  | |- context [Cat (Alt ?a ?b) ?t] => remember t as TAIL eqn:ET
  end.
  cbn. rewrite E1, E2, E3. cbn.
  subst UI. rewrite userinfo_digits by exact H. reflexivity.
Qed.

Lemma integer_tests strip c ds :
  in_range 49 57 c = true -> forallb ascii_digit ds = true ->
  is_empty (detector strip) (c :: ds) = Ok false /\
  is_url_or_email U (detector strip) (c :: ds) = Ok false /\
  is_number U (detector strip) (c :: ds) = Ok true.
Proof.
  intros Hc Hd.
  assert (H : forallb ascii_digit (c :: ds) = true).
  { cbn [forallb]; rewrite Hd, andb_true_r. 
    unfold in_range in Hc; apply andb_prop in Hc; destruct Hc as [H1 H2].
    apply N.leb_le in H1, H2. apply ascii_digit_range; lia. }
  split; [|split].
  - unfold is_empty; rewrite (@stripped_digits _ _ H); reflexivity.
  - unfold is_url_or_email.
    rewrite (@run_regex_value U _ _ "url" Pat.url)
      by (apply detector_pattern; reflexivity).
    rewrite (@run_regex_value U _ _ "email" Pat.email)
      by (apply detector_pattern; reflexivity).
    rewrite (@stripped_digits _ _ H), url_digits, email_digits by exact H.
    reflexivity.
  - rewrite is_number_value, (@stripped_digits _ _ H).
    rewrite integer_number_1 by assumption. reflexivity.
Qed.

End Integers.

(** X9.  Every cell of ASCII digits that does not begin with "0" is a
    number, so it is never a date, whatever date pattern it matches, and
    [detect_type] labels it "number". *)
Theorem integers_are_numbers (U : unicode_db) (U_ascii : ascii_ok U)
  (strip : bool) (c : N) (ds : Str.t) :
  let td := detector strip in
  let cell := c :: ds in
  in_range (ord "1") (ord "9") c = true ->
  forallb ascii_digit ds = true ->
  is_number U td cell = Ok true /\
  is_date U td cell = Ok false /\
  detect_type U td cell = Ok (Some "number"%string).
Proof.
  intros td cell Hc Hd; subst td cell.
  destruct (@integer_tests U U_ascii strip c ds Hc Hd) as (H1 & H2 & H3).
  split; [exact H3|]. split; [apply is_date_number; exact H3|].
  apply detect_number; assumption.
Qed.

Lemma integers_are_numbers_witness :
  ascii_ok ascii_db /\
  is_date ascii_db (detector true) (py "31121999") = Ok false /\
  detect_type ascii_db (detector true) (py "31121999") =
    Ok (Some "number"%string).
Proof.
  split; [exact ascii_db_ok|].
  apply (@integers_are_numbers ascii_db ascii_db_ok true 51%N (py "1121999"));
    reflexivity.
Defined.

(** ** ISO date-times *)

Lemma offset_regex_value U strip s :
  _run_regex U (detector strip) s "time_HHMM" =
    Ok (hhmm_form (stripped (detector strip) s)) /\
  _run_regex U (detector strip) s "time_HH" =
    Ok (hhmm_form (stripped (detector strip) s)).
Proof.
  rewrite (@run_regex_value U _ s "time_HHMM" Pat.time_HHMM)
    by (apply detector_pattern; reflexivity).
  rewrite (@run_regex_value U _ s "time_HH" Pat.time_HH)
    by (apply detector_pattern; reflexivity).
  change Pat.time_HH with Pat.time_HHMM.
  rewrite time_HHMM_form; split; reflexivity.
Qed.

Lemma offset_branch_value U strip sep t :
  Str.contains sep t = true ->
  offset_branch U (detector strip) sep t =
  Ok (if offset_form (detector strip) sep t then Some true
      else match Str.split sep t with
           | s0 :: _ =>
               if time_form (stripped (detector strip) s0) then None
               else Some false
           | [] => None
           end).
Proof.
  intros H; apply split_contains in H.
  unfold offset_branch, offset_form.
  destruct (Str.split sep t) as [|s0 [|s1 more]]; cbn [List.length] in H;
    try lia.
  unfold index; cbn [nth_error bind].
  rewrite !is_time_value; cbn [bind].
  destruct (offset_regex_value U strip s1) as [-> ->]; cbn [bind].
  destruct (time_form (stripped (detector strip) s0)); cbn [negb andb];
    [|reflexivity].
  destruct (time_form (stripped (detector strip) s1)); cbn [orb];
    [reflexivity|].
  destruct (hhmm_form (stripped (detector strip) s1)); reflexivity.
Qed.

Lemma split_without c s :
  Str.contains c s = false -> List.length (Str.split c s) = 1.
Proof.
  unfold Str.split, Str.contains; rewrite split_aux_length; intros H.
  replace (filter (fun x => N.eqb x c) s) with (@nil N); [reflexivity|].
  symmetry. induction s as [|x s IH]; [reflexivity|].
  cbn [existsb filter] in *. apply orb_false_elim in H; destruct H as [Hx H].
  rewrite N.eqb_sym, Hx. apply IH, H.
Qed.

Lemma iso_tail_value U strip t :
  (r <- (if Str.contains (ord "+") t
         then offset_branch U (detector strip) (ord "+") t
         else if Str.contains (ord "-") t
              then offset_branch U (detector strip) (ord "-") t
              else Ok None) ;;
   match r with
   | Some b => Ok b
   | None => Ok false
   end) =
  Ok (if Str.contains (ord "+") t then offset_form (detector strip) (ord "+") t
      else if Str.contains (ord "-") t
           then offset_form (detector strip) (ord "-") t
           else false).
Proof.
  destruct (Str.contains (ord "+") t) eqn:Ep.
  - rewrite (offset_branch_value U strip _ _ Ep); cbn [bind].
    destruct (offset_form _ _ t); [reflexivity|].
    destruct (Str.split (ord "+") t) as [|s0 ?]; [reflexivity|].
    destruct (time_form _); reflexivity.
  - destruct (Str.contains (ord "-") t) eqn:Em; [|reflexivity].
    rewrite (offset_branch_value U strip _ _ Em); cbn [bind].
    destruct (offset_form _ _ t); [reflexivity|].
    destruct (Str.split (ord "-") t) as [|s0 ?]; [reflexivity|].
    destruct (time_form _); reflexivity.
Qed.

(** X10.  A cell without a space is a date-time exactly when "T" splits
    it in two parts, a date and then a time, optionally followed by "+"
    (or, when there is no "+", by "-") and an offset that is a time or
    four digits HHMM; what follows a second "+" or "-" is not looked
    at. *)
Theorem iso_datetime_form (U : unicode_db) (strip : bool) (cell : Str.t) :
  let td := detector strip in
  Str.contains (ord " ") cell = false ->
  (is_datetime U td cell = Ok true <->
   exists date time,
     Str.split (ord "T") cell = [date; time] /\
     is_date U td date = Ok true /\
     iso_time_form td time = true).
Proof.
  intros td Hsp; subst td. unfold is_datetime; rewrite Hsp.
  destruct (Str.contains (ord "T") cell) eqn:HT.
  - apply split_contains in HT.
    destruct (Str.split (ord "T") cell) as [|p0 [|p1 [|p2 ps]]];
      cbn [List.length] in HT; try lia.
    + replace (Nat.ltb 2 (List.length [p0; p1])) with false by reflexivity.
      unfold index; cbn [nth_error bind].
      destruct (is_date_safe U strip p0) as [b Hb]. rewrite Hb; cbn [bind].
      destruct b; cbn [negb].
      * rewrite is_time_value; cbn [bind]. unfold iso_time_form.
        destruct (time_form (stripped (detector strip) p1)) eqn:Et.
        -- split; [|reflexivity]. intros _; exists p0, p1.
           rewrite Et; cbn [orb]; auto.
        -- rewrite iso_tail_value. split.
           ++ intros E; injection E as E. exists p0, p1.
              split; [reflexivity|]. split; [exact Hb|].
              rewrite Et; cbn [orb]; exact E.
           ++ intros (d & t & Heq & _ & E). injection Heq as <- <-.
              rewrite Et in E; cbn [orb] in E. f_equal; exact E.
      * split; [discriminate|].
        intros (d & t & Heq & E & _). injection Heq as <- <-.
        rewrite Hb in E; discriminate.
    + replace (Nat.ltb 2 (List.length (p0 :: p1 :: p2 :: ps))) with true
        by reflexivity.
      split; [discriminate | intros (d & t & Heq & _); discriminate].
  - split; [discriminate|]. intros (d & t & Heq & _).
    apply split_without in HT. rewrite Heq in HT; discriminate.
Qed.

Lemma iso_datetime_form_witness :
  Str.contains (ord " ") (py "2023-01-01T12:30:00+02:00+zz") = false /\
  is_datetime ascii_db (detector true) (py "2023-01-01T12:30:00+02:00+zz")
    = Ok true.
Proof.
  split; [reflexivity|].
  apply (@iso_datetime_form ascii_db true (py "2023-01-01T12:30:00+02:00+zz"));
    [reflexivity|].
  exists (py "2023-01-01"), (py "12:30:00+02:00+zz").
  split; [reflexivity|]. split; vm_compute; reflexivity.
Defined.

(** ** Alphanumeric cells *)

Lemma existsb_map_Ch U c l :
  existsb (fun i => citem_mem U i c) (map Ch l) = existsb (N.eqb c) l.
Proof. induction l as [|x l IH]; cbn; [|rewrite IH]; reflexivity. Qed.

Lemma alnum_chars U c :
  consumable U Pat.unicode_alphanum c = true -> alnum_char U c = true.
Proof.
  unfold Pat.unicode_alphanum, Pat.alnum_tail, alnum_char.
  cbn [consumable Seq Plus].
  rewrite !existsb_app, !existsb_map_Ch. cbn [existsb citem_mem].
  destruct (u_letter U c), (u_number U c), (N.eqb c (ord " ")),
    (existsb (N.eqb c) SPECIALS_ALLOWED); intros H; try reflexivity;
    discriminate H.
Qed.

Lemma alnum_short U s :
  (List.length s < 2)%nat -> matches U Pat.unicode_alphanum s = false.
Proof.
  destruct s as [|a [|b s]]; cbn [List.length]; try lia; intros _.
  - reflexivity.
  - unfold matches, fullmatch, Pat.unicode_alphanum. cbn.
    destruct (u_number U a), (u_letter U a); reflexivity.
Qed.

Lemma alnum_first U a s :
  u_letter U a = false -> u_number U a = false ->
  matches U Pat.unicode_alphanum (a :: s) = false.
Proof.
  intros HL HN. unfold matches, fullmatch, Pat.unicode_alphanum.
  remember Pat.alnum_tail as T.
  cbn. rewrite HL, HN. reflexivity.
Qed.

(** X11.  An alphanumeric cell has, after the strip of the detector, at
    least two characters; it begins with a letter or a number and holds
    only letters, numbers, spaces and the allowed special characters.  A
    cell of one character is never alphanumeric. *)
Theorem alphanum_shape (U : unicode_db) (strip : bool) (cell : Str.t) :
  let td := detector strip in
  is_unicode_alphanum U td cell = Ok true ->
  exists a b s,
    stripped td cell = a :: b :: s /\
    (u_letter U a = true \/ u_number U a = true) /\
    forall c, In c (stripped td cell) ->
      u_letter U c = true \/ u_number U c = true \/ c = ord " " \/
      In c SPECIALS_ALLOWED.
Proof.
  intros td; subst td. unfold is_unicode_alphanum.
  rewrite (@run_regex_value U _ cell "unicode_alphanum" Pat.unicode_alphanum)
    by (apply detector_pattern; reflexivity).
  intros H; injection H as H.
  destruct (stripped (detector strip) cell) as [|a [|b s]] eqn:E.
  - rewrite alnum_short in H by (cbn; lia); discriminate.
  - rewrite alnum_short in H by (cbn; lia); discriminate.
  - exists a, b, s. split; [reflexivity|]. split.
    + destruct (u_letter U a) eqn:HL; [left; reflexivity|].
      destruct (u_number U a) eqn:HN; [right; reflexivity|].
      rewrite alnum_first in H by assumption; discriminate.
    + intros c Hin. apply matches_consumable in H.
      rewrite forallb_forall in H. specialize (H c Hin).
      apply alnum_chars in H. unfold alnum_char in H.
      repeat (rewrite orb_true_iff in H).
      destruct H as [[[H|H]|H]|H]; auto.
      * apply N.eqb_eq in H; auto.
      * apply existsb_exists in H. destruct H as [x [Hx Hc]].
        apply N.eqb_eq in Hc; subst x; auto.
Qed.

Lemma alphanum_shape_witness :
  exists a b s,
    stripped (detector true) (py " abc ") = a :: b :: s /\
    (u_letter ascii_db a = true \/ u_number ascii_db a = true) /\
    forall c, In c (stripped (detector true) (py " abc ")) ->
      u_letter ascii_db c = true \/ u_number ascii_db c = true \/
      c = ord " " \/ In c SPECIALS_ALLOWED.
Proof.
  apply (@alphanum_shape ascii_db true (py " abc ")).
  vm_compute; reflexivity.
Defined.

(** ** Currency amounts *)

Section Currency.

Variable U : unicode_db.

Lemma run_Cat a b st k :
  run U (Cat a b) st k = run U a st (fun st1 => run U b st1 k).
Proof. reflexivity. Qed.

Lemma run_Alt a b st k :
  run U (Alt a b) st k = orelse (run U a st k) (run U b st k).
Proof. reflexivity. Qed.

Lemma run_Eps st k : run U Eps st k = k st.
Proof. reflexivity. Qed.

Lemma run_Group n r st k :
  run U (Group n r) st k = run U r st (fun st1 => k (set_group n st st1)).
Proof. reflexivity. Qed.

Lemma run_Set items st k :
  run U (Set_ items) st k =
  match rest st with
  | c :: s' =>
      if existsb (fun i => citem_mem U i c) items then k (advance st s')
      else None
  | [] => None
  end.
Proof. reflexivity. Qed.

(** A greedy run of "any character" takes a whole string without a
    newline. *)
Lemma star_any K w m : forall st,
  rest st = w -> no_newline w = true ->
  K {| pos := pos st + List.length w; rest := []; caps := caps st |} = Some m ->
  run U (Star Any) st K = Some m.
Proof.
  intros st Hr. cbn [run].
  replace (List.length (rest st)) with (List.length w)
    by (rewrite Hr; reflexivity).
  revert st Hr. induction w as [|x xs IH]; intros st Hr Hn HK.
  - cbn [List.length] in *. rewrite Nat.add_0_r in HK.
    destruct st as [p r cs]; cbn in *; subst r; exact HK.
  - cbn [no_newline forallb] in Hn. apply andb_prop in Hn.
    destruct Hn as [Hx Hn]. apply negb_true_iff in Hx.
    cbn [List.length]. cbn [run]. rewrite Hr, Hx.
    replace (Nat.ltb (pos st) (pos (advance st xs))) with true
      by (symmetry; apply PeanoNat.Nat.ltb_lt; cbn; lia).
    rewrite (IH (advance st xs) eq_refl Hn); [reflexivity|].
    cbn [advance pos caps]. rewrite <- HK. f_equal. f_equal.
    cbn [List.length]. lia.
Qed.

Lemma firstn_added {A} (l : list A) p :
  firstn (p + List.length l - p) l = l.
Proof.
  replace (p + List.length l - p) with (List.length l) by lia.
  apply firstn_all.
Qed.

Lemma group_any_value st w k0 :
  rest st = w -> no_newline w = true ->
  run U (Group "1" (Star Any)) st
    (fun st' => match rest st' with [] => Some st' | _ :: _ => None end) =
  Some (set_group "1" st
          {| pos := pos st + List.length w; rest := []; caps := caps st |}) /\
  get_group "1"
    (caps (set_group "1" st
             {| pos := pos st + List.length w; rest := []; caps := k0 |})) =
  Some w.
Proof.
  intros Hr Hn; split.
  - rewrite run_Group. apply (@star_any _ w _ st Hr Hn). reflexivity.
  - cbn [set_group caps pos get_group]. rewrite String.eqb_refl, Hr.
    rewrite firstn_added; reflexivity.
Qed.

Lemma currency_group_value sym body :
  u_currency U sym = true ->
  no_newline (currency_remainder U body) = true ->
  exists m,
    fullmatch U Pat.currency (sym :: body) = Some m /\
    get_group "1" (caps m) = Some (currency_remainder U body).
Proof.
  intros Hs Hn. unfold fullmatch, Pat.currency, Seq.
  rewrite run_Cat, run_Set. cbn [rest existsb citem_mem].
  rewrite Hs; cbn [orb]. rewrite run_Cat. unfold Opt. rewrite run_Alt.
  unfold currency_remainder in *.
  destruct body as [|w body'].
  - rewrite run_Set, run_Eps. cbn [rest advance orelse].
    match goal with
    | |- context [run U (Group "1" (Star Any)) ?st _] =>
        destruct (@group_any_value st [] (caps st) eq_refl Hn) as [E1 E2]
    end.
    eexists; split; [exact E1 | exact E2].
  - rewrite run_Set, run_Eps. cbn [rest advance existsb citem_mem].
    destruct (u_space U w); cbn [orb].
    + match goal with
      | |- context [orelse (run U (Group "1" (Star Any)) ?st _) _] =>
          destruct (@group_any_value st body' (caps st) eq_refl Hn) as [E1 E2]
      end.
      eexists; split; [rewrite E1; reflexivity | exact E2].
    + cbn [orelse].
      match goal with
      | |- context [run U (Group "1" (Star Any)) ?st _] =>
          destruct (@group_any_value st (w :: body') (caps st) eq_refl Hn)
            as [E1 E2]
      end.
      eexists; split; [exact E1 | exact E2].
Qed.

Lemma currency_no_sign sym body :
  u_currency U sym = false ->
  fullmatch U Pat.currency (sym :: body) = None /\
  fullmatch U Pat.currency [] = None.
Proof.
  intros Hs; split; [|reflexivity].
  unfold fullmatch, Pat.currency, Seq.
  rewrite run_Cat, run_Set. cbn [rest existsb citem_mem].
  rewrite Hs; reflexivity.
Qed.

End Currency.

(** X12.  A cell that begins, after the strip of the detector, with a
    currency sign is a currency amount exactly when what follows the
    sign, less one leading whitespace character, is a number (as long as
    that remainder holds no newline); a cell that does not begin with a
    currency sign is not a currency amount. *)
Theorem currency_is_number (U : unicode_db) (strip : bool) (cell : Str.t) :
  let td := detector strip in
  (forall sym body,
     stripped td cell = sym :: body ->
     u_currency U sym = true ->
     no_newline (currency_remainder U body) = true ->
     is_currency U td cell = is_number U td (currency_remainder U body)) /\
  (forall sym body,
     stripped td cell = sym :: body -> u_currency U sym = false ->
     is_currency U td cell = Ok false) /\
  (stripped td cell = [] -> is_currency U td cell = Ok false).
Proof.
  intros td; subst td.
  assert (Hp : dict_get (patterns (detector strip)) "currency"
               = Some Pat.currency) by (apply detector_pattern; reflexivity).
  split; [|split].
  - intros sym body E Hs Hn. unfold is_currency; rewrite Hp, E.
    destruct (@currency_group_value U sym body Hs Hn) as (m & -> & ->).
    destruct (is_number_safe U strip (currency_remainder U body)) as [b ->].
    destruct b; reflexivity.
  - intros sym body E Hs. unfold is_currency; rewrite Hp, E.
    destruct (@currency_no_sign U sym body Hs) as [-> _]; reflexivity.
  - intros E. unfold is_currency; rewrite Hp, E. reflexivity.
Qed.

Lemma currency_is_number_witness :
  is_currency ascii_db (detector true) (py "$ 12.50") = Ok true /\
  is_currency ascii_db (detector true) (py "$") = Ok false.
Proof.
  destruct (@currency_is_number ascii_db true (py "$ 12.50")) as (H1 & _).
  destruct (@currency_is_number ascii_db true (py "$")) as (H2 & _).
  split.
  - rewrite (H1 (ord "$") (py " 12.50")); vm_compute; reflexivity.
  - rewrite (H2 (ord "$") (py "")); vm_compute; reflexivity.
Defined.

(** ** Percentages *)

Lemma lstrip_repeat c k l : Str.lstrip c (repeat c k ++ l) = Str.lstrip c l.
Proof.
  induction k as [|k IH]; cbn [repeat app Str.lstrip]; [reflexivity|].
  rewrite N.eqb_refl; exact IH.
Qed.

Lemma lstrip_decomp c l : exists k, l = repeat c k ++ Str.lstrip c l.
Proof.
  induction l as [|x l [k IH]]; [exists 0; reflexivity|].
  cbn [Str.lstrip]. destruct (N.eqb_spec x c) as [->|_].
  - exists (S k); cbn [repeat app]; rewrite <- IH; reflexivity.
  - exists 0; reflexivity.
Qed.

Lemma rev_repeat {A} (x : A) k : rev (repeat x k) = repeat x k.
Proof.
  induction k as [|k IH]; [reflexivity|].
  cbn [repeat rev]. rewrite IH. symmetry; apply repeat_cons.
Qed.

Lemma rstrip_decomp c s :
  exists k, s = Str.rstrip c s ++ repeat c k /\
            Str.endswith c (Str.rstrip c s) = false.
Proof.
  unfold Str.rstrip, Str.endswith.
  destruct (lstrip_decomp c (rev s)) as [k Hk]. exists k. split.
  - rewrite <- (rev_involutive s) at 1. rewrite Hk at 1.
    rewrite rev_app_distr, rev_repeat; reflexivity.
  - rewrite rev_involutive.
    destruct (Str.lstrip c (rev s)) as [|x m] eqn:E; [reflexivity|].
    apply N.eqb_neq. eapply lstrip_head; exact E.
Qed.

Lemma rstrip_repeat c body k :
  Str.endswith c body = false ->
  Str.rstrip c (body ++ repeat c k) = body.
Proof.
  unfold Str.rstrip, Str.endswith; intros H.
  rewrite rev_app_distr, rev_repeat, lstrip_repeat.
  destruct (rev body) as [|x m] eqn:E.
  - cbn. apply (f_equal (@rev N)) in E. rewrite rev_involutive in E.
    symmetry; exact E.
  - cbn [Str.lstrip]. rewrite H, <- E. apply rev_involutive.
Qed.

Lemma endswith_repeat c body k :
  Str.endswith c (body ++ repeat c (S k)) = true.
Proof.
  unfold Str.endswith. rewrite rev_app_distr, rev_repeat.
  cbn [repeat app]. apply N.eqb_refl.
Qed.

(** X13.  A cell is a percentage exactly when, after the strip of the
    detector, it is a text that does not end with "%", followed by one or
    more "%", and [is_number] is true for that text. *)
Theorem percentage_form (U : unicode_db) (strip : bool) (cell : Str.t) :
  let td := detector strip in
  is_percentage U td cell = Ok true <->
  exists body n,
    stripped td cell = body ++ repeat (ord "%") (S n) /\
    Str.endswith (ord "%") body = false /\
    is_number U td body = Ok true.
Proof.
  intros td; subst td. unfold is_percentage, and_; cbn [bind]. split.
  - destruct (Str.endswith (ord "%") (stripped (detector strip) cell)) eqn:E;
      [|discriminate].
    intros Hn.
    destruct (rstrip_decomp (ord "%") (stripped (detector strip) cell))
      as (k & Hk & He).
    destruct k as [|k].
    + cbn [repeat] in Hk. rewrite app_nil_r in Hk.
      rewrite <- Hk in He; congruence.
    + eexists; exists k. split; [exact Hk|]. split; [exact He | exact Hn].
  - intros (body & n & -> & He & Hn).
    rewrite endswith_repeat, rstrip_repeat by exact He. exact Hn.
Qed.

Lemma percentage_form_witness :
  is_percentage ascii_db (detector true) (py " 45.5%% ") = Ok true.
Proof.
  apply (proj2 (@percentage_form ascii_db true (py " 45.5%% "))).
  exists (py "45.5"), 1. repeat split; vm_compute; reflexivity.
Defined.

(** ** What a date is made of *)

Section DateChars.

Variable U : unicode_db.

Ltac chars_of_date :=
  intros c; unfold date_char; cbn; unfold ascii_digit, in_range;
  repeat (rewrite andb_true_iff || rewrite orb_true_iff);
  rewrite ?N.eqb_eq, ?N.leb_le;
  intuition (try discriminate; try lia).

Lemma piece_year2 : date_piece U DatePat.year2.
Proof. chars_of_date. Qed.
Lemma piece_year4 : date_piece U DatePat.year4.
Proof. chars_of_date. Qed.
Lemma piece_month_leading : date_piece U DatePat.month_leading.
Proof. chars_of_date. Qed.
Lemma piece_month_sparse : date_piece U DatePat.month_sparse.
Proof. chars_of_date. Qed.
Lemma piece_day_leading : date_piece U DatePat.day_leading.
Proof. chars_of_date. Qed.
Lemma piece_day_sparse : date_piece U DatePat.day_sparse.
Proof. chars_of_date. Qed.
Lemma piece_sep : date_piece U DatePat.sep.
Proof. chars_of_date. Qed.
Lemma piece_Eps : date_piece U Eps.
Proof. intros c; discriminate. Qed.

Lemma piece_Lit x :
  In x [24180; 26376; 26085; 45380; 50900; 51068]%N -> date_piece U (Lit x).
Proof.
  intros Hx c; unfold date_char; cbn [consumable Lit existsb citem_mem].
  rewrite orb_false_r; intros H; apply N.eqb_eq in H; subst c.
  rewrite existsb_app. apply orb_true_iff; right; apply orb_true_iff; right.
  apply existsb_exists; exists x; split; [exact Hx | apply N.eqb_refl].
Qed.

Lemma piece_Seq rs : Forall (date_piece U) rs -> date_piece U (Seq rs).
Proof.
  induction 1 as [|r rs Hr Hrs IH]; [exact piece_Eps|].
  destruct rs as [|r' rs']; [exact Hr|].
  intros c; change (Seq (r :: r' :: rs')) with (Cat r (Seq (r' :: rs'))).
  cbn [consumable]. intros H; apply orb_prop in H.
  destruct H as [H|H]; [apply Hr | apply IH]; exact H.
Qed.

Lemma date_patterns_pieces strip :
  Forall (date_piece U) (date_patterns (detector strip)).
Proof.
  rewrite date_patterns_generated. cbn [flat_map app].
  repeat (constructor;
    [apply piece_Seq;
     repeat (constructor;
       [first [ exact piece_year2 | exact piece_year4
              | exact piece_month_leading | exact piece_month_sparse
              | exact piece_day_leading | exact piece_day_sparse
              | exact piece_sep | exact piece_Eps
              | apply piece_Lit; simpl; tauto ]|]);
     constructor|]).
  constructor.
Qed.

Lemma date_patterns_nonempty strip :
  Forall (fun pat => matches U pat [] = false) (date_patterns (detector strip)).
Proof.
  rewrite date_patterns_generated. cbn [flat_map app].
  repeat (constructor; [reflexivity|]). constructor.
Qed.

Lemma is_date_not_number strip cell :
  is_date U (detector strip) cell = Ok true ->
  is_number U (detector strip) cell = Ok false.
Proof.
  unfold is_date.
  destruct (is_number U (detector strip) cell) as [[|]|e]; cbn [bind];
    [discriminate | reflexivity | discriminate].
Qed.

Lemma is_date_chars strip cell :
  is_date U (detector strip) cell = Ok true ->
  stripped (detector strip) cell <> [] /\
  forallb (date_char U) (stripped (detector strip) cell) = true.
Proof.
  intros H. pose proof (is_date_not_number _ _ H) as Hn.
  apply (is_date_spec U (detector strip) cell
           (detector_keys_distinct strip) Hn) in H.
  destruct H as (pat & Hin & Hm). split.
  - intros E. rewrite E in Hm.
    pose proof (date_patterns_nonempty strip) as HF.
    rewrite Forall_forall in HF. rewrite (HF pat Hin) in Hm; discriminate.
  - pose proof (date_patterns_pieces strip) as HF.
    rewrite Forall_forall in HF. specialize (HF pat Hin).
    apply matches_consumable in Hm. revert Hm; apply forallb_impl; exact HF.
Qed.

End DateChars.

(** X14.  A cell that is a date is not a number, not empty and not a
    time, and after the strip of the detector it holds only digits, the
    separators "-", "/", "." and space, and the Chinese and Korean words
    for year, month and day. *)
Theorem date_characters (U : unicode_db) (U_ascii : ascii_ok U)
  (strip : bool) (cell : Str.t) :
  let td := detector strip in
  is_date U td cell = Ok true ->
  is_number U td cell = Ok false /\
  is_empty td cell = Ok false /\
  is_time U td cell = Ok false /\
  forall c, In c (stripped td cell) ->
    u_digit U c = true \/
    In c (py "0123456789-/. " ++ [24180; 26376; 26085; 45380; 50900; 51068])%N.
Proof.
  intros td H; subst td.
  destruct (is_date_chars U strip cell H) as [Hne Hc].
  split; [apply is_date_not_number; exact H|]. split; [|split].
  - unfold is_empty. f_equal. apply not_true_is_false; intros E.
    apply Str_eqb_eq in E; contradiction.
  - rewrite is_time_value. f_equal. apply not_true_is_false; intros E.
    apply time_form_colon in E.
    apply (forallb_In_false _ _ _ Hc E).
    unfold date_char. destruct (U_ascii 58%N eq_refl) as [E58 _].
    rewrite E58; reflexivity.
  - intros c Hin. rewrite forallb_forall in Hc; specialize (Hc c Hin).
    unfold date_char, ascii_digit, in_range in Hc.
    repeat (rewrite andb_true_iff in Hc || rewrite orb_true_iff in Hc).
    rewrite ?N.leb_le in Hc.
    destruct Hc as [[Hc|Hc]|Hc]; [left; exact Hc | right | right].
    + assert (E : exists n, (n < 10)%nat /\ c = N.of_nat (48 + n)).
      { exists (N.to_nat c - 48)%nat; split; lia. }
      destruct E as (n & Hlt & ->).
      do 10 (destruct n as [|n]; [simpl; tauto|]). lia.
    + apply existsb_exists in Hc. destruct Hc as (x & Hx & Hc).
      apply N.eqb_eq in Hc; subst x.
      apply in_app_or in Hx; apply in_or_app.
      destruct Hx as [Hx|Hx]; [left | right; exact Hx].
      simpl in Hx |- *; tauto.
Qed.

Lemma date_characters_witness :
  ascii_ok ascii_db /\
  is_time ascii_db (detector true) (py "2023-01-01") = Ok false /\
  is_number ascii_db (detector true) (py "2023-01-01") = Ok false.
Proof.
  split; [exact ascii_db_ok|].
  destruct (@date_characters ascii_db ascii_db_ok true (py "2023-01-01"))
    as (H1 & _ & H3 & _); [vm_compute; reflexivity|].
  split; assumption.
Defined.
